(** * Summit-Engine: event dispatch and widget state of [summitengine.py]

    A shallow embedding of the widget classes ([GameObject], [Button],
    [Label], [InputBox], [ScrollView]) and of the engine ([handle_events],
    [update], [render], [run]), followed by the properties of the
    specification that concern them.

    Python integers are modelled by [Z], Python [str] by [string] (one
    [ascii] per character), in-place mutation by explicit state passing,
    exceptions by the state a call leaves together with what it raised,
    and [print] by a list of the lines written to standard output. *)

From Stdlib Require Import ZArith List Ascii String Bool Lia.
Import ListNotations.
Open Scope Z_scope.

(** ** Exceptions *)

Inductive exn :=
| AttributeError (name : string)
| TypeError (msg : string)
| ValueError (msg : string)
| pygame_error (msg : string).

Inductive result (A : Type) := Ok (a : A) | Raised (e : exn).
Arguments Ok {A} a.
Arguments Raised {A} e.

(** ** The part of pygame the engine uses

    pygame is not part of the sources.  What it computes on the values the
    engine hands it is written out where pygame documents it or where the
    engine's results depend on it (the C ints of a [Rect]); what it accepts
    and what it refuses, and how a surface clips, is left to the objects
    themselves: a font and a surface carry their own answers. *)

Module pygame.

(** [pygame.Rect]: four integers, stored as given (no normalisation). *)
Record Rect := mkRect { x : Z; y : Z; width : Z; height : Z }.

Definition Color : Type := Z * Z * Z.

(** Modelled from the spec: [pygame.Rect.collidepoint] belongs to the
    pygame library, which is not part of the sources.  The hit test
    holds iff p.x is in [bounds.x, bounds.x + bounds.width) and p.y is
    in [bounds.y, bounds.y + bounds.height). *)
Definition collidepoint (r : Rect) (p : Z * Z) : bool :=
  (x r <=? fst p) && (fst p <? x r + width r) &&
  (y r <=? snd p) && (snd p <? y r + height r).

(** A [Rect] keeps its four values as C ints.  A Python int that is
    stored into one is first read as a C long (64 bits), which fails for
    an int that does not fit, and then cut to 32 bits, two's complement. *)
Definition is_c_int (v : Z) : bool :=
  (-2147483648 <=? v) && (v <? 2147483648).

Definition wrap32 (v : Z) : Z :=
  (v + 2147483648) mod 4294967296 - 2147483648.

Definition as_c_int (v : Z) : option Z :=
  if (-9223372036854775808 <=? v) && (v <? 9223372036854775808)
  then Some (wrap32 v) else None.

(** [pygame.Rect(x, y, width, height)]. *)
Definition Rect_new (x y width height : Z) : result Rect :=
  match as_c_int x, as_c_int y, as_c_int width, as_c_int height with
  | Some x, Some y, Some width, Some height => Ok (mkRect x y width height)
  | _, _, _, _ => Raised (TypeError "Argument must be rect style object")
  end.

(** [rect.y += d] and [rect.y -= d]: the sum is a Python int, which is
    then stored into the [Rect]. *)
Definition iadd_y (r : Rect) (d : Z) : result Rect :=
  match as_c_int (y r + d) with
  | Some v => Ok (mkRect (x r) v (width r) (height r))
  | None => Raised (TypeError "invalid rect assignment")
  end.

Definition isub_y (r : Rect) (d : Z) : result Rect :=
  match as_c_int (y r - d) with
  | Some v => Ok (mkRect (x r) v (width r) (height r))
  | None => Raised (TypeError "invalid rect assignment")
  end.

(** A font object: the size it was created with, [Font.size(text)] (the
    width and height of the text) and [Font.render(text, True, color)],
    of which the engine uses only whether it raises. *)
Record Font := mkFont
  { point_size : Z;
    size : string -> result (Z * Z);
    render : string -> Color -> option exn }.

(** Key codes. *)
Definition K_BACKSPACE : Z := 8.
Definition K_RETURN : Z := 13.

(** The events of [pygame.event.get()], by [event.type], each with the
    attributes that type carries.  Every type the engine never tests is
    an [OTHER] event. *)
Inductive Event :=
| QUIT
| MOUSEBUTTONDOWN (pos : Z * Z) (button : Z)
| KEYDOWN (key : Z) (unicode : string)
| OTHER (type : Z).

(** Where a text is blitted: at the rectangle that
    [text_surface.get_rect(center=r.center)] gives, or with its top left
    corner at a point. *)
Inductive Dest :=
| CenteredOn (r : Rect)
| TopLeft (p : Z * Z).

(** What a surface has been asked to do, as it was asked, in order. *)
Inductive DrawOp :=
| SetClip (r : Rect)
| DrawRect (c : Color) (r : Rect)
| Blit (text : string) (point : Z) (c : Color) (dest : Dest)
| DrawLine (c : Color) (p q : Z * Z)
| Fill (c : Color)
| Flip.

(** A surface.  [clipped c r] is the clip rectangle that results when
    [set_clip(r)] is called while [c] is the clip rectangle (pygame cuts
    [r] down to the surface); [refuses op] is the exception with which
    pygame refuses an operation (a colour or a position it cannot read),
    if it does.  Then the clip rectangle in force and the operations
    applied so far. *)
Record Surface := mkSurface
  { clipped : Rect -> Rect -> Rect;
    refuses : DrawOp -> option exn;
    clip : Rect;
    ops : list DrawOp }.

(** A drawing step: the surface as the step leaves it, and the exception
    it raised, if any. *)
Definition Step : Type := Surface -> Surface * option exn.

Definition get_clip (s : Surface) : Rect := clip s.

Definition set_clip (r : Rect) (s : Surface) : Surface :=
  mkSurface (clipped s) (refuses s) (clipped s (clip s) r)
            (ops s ++ [SetClip r]).

(** An operation that pygame may refuse leaves the surface alone when it
    is refused. *)
Definition request (op : DrawOp) : Step :=
  fun s =>
    match refuses s op with
    | Some e => (s, Some e)
    | None => (mkSurface (clipped s) (refuses s) (clip s) (ops s ++ [op]), None)
    end.

Definition draw_rect (c : Color) (r : Rect) : Step := request (DrawRect c r).

Definition draw_line (c : Color) (p q : Z * Z) : Step :=
  request (DrawLine c p q).

(** [text_surface = font.render(text, True, c)]. *)
Definition font_render (f : Font) (text : string) (c : Color) : Step :=
  fun s => (s, render f text c).

(** [screen.blit(text_surface, dest)]. *)
Definition blit (f : Font) (text : string) (c : Color) (dest : Dest) : Step :=
  request (Blit text (point_size f) c dest).

(** [screen.fill((0, 0, 0))] and [pygame.display.flip()]. *)
Definition fill (c : Color) (s : Surface) : Surface :=
  mkSurface (clipped s) (refuses s) (clip s) (ops s ++ [Fill c]).

Definition flip (s : Surface) : Surface :=
  mkSurface (clipped s) (refuses s) (clip s) (ops s ++ [Flip]).

(** One statement after the other: the second runs if the first raised
    nothing. *)
Definition and_then (a b : Step) : Step :=
  fun s =>
    match a s with
    | (s, None) => b s
    | (s, Some e) => (s, Some e)
    end.

End pygame.

Notation "a ;; b" := (pygame.and_then a b) (at level 61, right associativity).

(** ** Python [str] slicing *)

(** [s[:-1]]: all of [s] but its last character; the empty string for the
    empty string. *)
Definition slice_to_last (s : string) : string :=
  substring 0 (String.length s - 1) s.

(** ** The widget classes

    Every class derives from [GameObject], whose [__init__] gives an object
    its [rect] and [color].  An object is therefore held as these two
    attributes together with the attributes its own class adds ([attrs]);
    a method receives [self] as the [rect] (and [color]) it reads and the
    class's own [attrs]. *)

Module GameObject.

Definition draw (rect : pygame.Rect) (color : pygame.Color) : pygame.Step :=
  pygame.draw_rect color rect.

End GameObject.

Module Button.

Record attrs := mk
  { text : string; text_color : pygame.Color; font : pygame.Font }.

Definition draw (rect : pygame.Rect) (color : pygame.Color) (self : attrs)
    : pygame.Step :=
  GameObject.draw rect color ;;
  pygame.font_render (font self) (text self) (text_color self) ;;
  pygame.blit (font self) (text self) (text_color self)
    (pygame.CenteredOn rect).

Definition is_clicked (rect : pygame.Rect) (self : attrs)
    (mouse_pos : Z * Z) : bool :=
  pygame.collidepoint rect mouse_pos.

End Button.

Module Label.

Record attrs := mk
  { text : string; text_color : pygame.Color; font : pygame.Font }.

Definition draw (rect : pygame.Rect) (color : pygame.Color) (self : attrs)
    : pygame.Step :=
  GameObject.draw rect color ;;
  pygame.font_render (font self) (text self) (text_color self) ;;
  pygame.blit (font self) (text self) (text_color self)
    (pygame.CenteredOn rect).

End Label.

Module InputBox.

Record attrs := mk
  { text_color : pygame.Color; font : pygame.Font;
    text : string; active : bool }.

Definition set_text (self : attrs) (v : string) : attrs :=
  mk (text_color self) (font self) v (active self).
Definition set_active (self : attrs) (v : bool) : attrs :=
  mk (text_color self) (font self) (text self) v.

Definition draw (rect : pygame.Rect) (color : pygame.Color) (self : attrs)
    : pygame.Step :=
  GameObject.draw rect color ;;
  pygame.font_render (font self) (text self) (text_color self) ;;
  pygame.blit (font self) (text self) (text_color self)
    (pygame.TopLeft (pygame.x rect + 5, pygame.y rect + 5)) ;;
  if active self then
    fun screen =>
      match pygame.size (font self) (text self) with
      | Raised e => (screen, Some e)
      | Ok (w, _) =>
          let cursor_x := pygame.x rect + 5 + w in
          pygame.draw_line (text_color self)
            (cursor_x, pygame.y rect + 5)
            (cursor_x, pygame.y rect + pygame.height rect - 5) screen
      end
  else
    fun screen => (screen, None).

(** Returns the object after the event and the lines it printed. *)
Definition handle_event (rect : pygame.Rect) (self : attrs)
    (event : pygame.Event) : attrs * list string :=
  let self :=
    match event with
    | pygame.MOUSEBUTTONDOWN pos _ =>
        if pygame.collidepoint rect pos
        then set_active self (negb (active self))
        else set_active self false
    | _ => self
    end in
  match event with
  | pygame.KEYDOWN key unicode =>
      if active self then
        if key =? pygame.K_RETURN then
          (set_text self ""%string, [("Input: " ++ text self)%string])
        else if key =? pygame.K_BACKSPACE then
          (set_text self (slice_to_last (text self)), [])
        else
          (set_text self (text self ++ unicode)%string, [])
      else (self, [])
  | _ => (self, [])
  end.

End InputBox.

Module ScrollView.

(** [children] is not assigned by [__init__]: it is [None] until the
    caller assigns the attribute. *)
Record attrs (W : Type) := mk
  { content_height : Z; scroll_y : Z; children : option (list W) }.
Arguments mk {W}.
Arguments content_height {W}.
Arguments scroll_y {W}.
Arguments children {W}.

Definition set_scroll_y {W} (self : attrs W) (v : Z) : attrs W :=
  mk (content_height self) v (children self).
Definition set_children {W} (self : attrs W) (v : list W) : attrs W :=
  mk (content_height self) (scroll_y self) (Some v).

Definition handle_event {W} (rect : pygame.Rect) (self : attrs W)
    (event : pygame.Event) : attrs W :=
  match event with
  | pygame.MOUSEBUTTONDOWN pos button =>
      if pygame.collidepoint rect pos then
        let self :=
          if button =? 4 then
            set_scroll_y self (Z.min (scroll_y self + 10) 0)
          else self in
        if button =? 5 then
          set_scroll_y self
            (Z.max (scroll_y self - 10)
                   (- (content_height self - pygame.height rect)))
        else self
      else self
  | _ => self
  end.

End ScrollView.

(** An object: the [GameObject] attributes and what its class adds. *)
Inductive Widget :=
| Obj (rect : pygame.Rect) (color : pygame.Color) (kind : Kind)
with Kind :=
| IsGameObject
| IsButton (self : Button.attrs)
| IsLabel (self : Label.attrs)
| IsInputBox (self : InputBox.attrs)
| IsScrollView (self : ScrollView.attrs Widget).


(** ** Drawing

    [draw rect color kind screen] is [self.draw(screen)] for the object
    [Obj rect color kind], dispatched on its class.  It gives the object's
    own attributes and the surface as the call leaves them, and the
    exception the call raised, if any: what had been mutated when an
    exception is raised stays mutated.

    The [IsScrollView] case is [ScrollView.draw]: its loop moves each child
    by [scroll_y], draws it and moves it back. *)
Fixpoint draw (rect : pygame.Rect) (color : pygame.Color) (kind : Kind)
    (screen : pygame.Surface) {struct kind}
    : Kind * pygame.Surface * option exn :=
  match kind with
  | IsGameObject =>
      let '(screen, e) := GameObject.draw rect color screen in
      (kind, screen, e)
  | IsButton self =>
      let '(screen, e) := Button.draw rect color self screen in
      (kind, screen, e)
  | IsLabel self =>
      let '(screen, e) := Label.draw rect color self screen in
      (kind, screen, e)
  | IsInputBox self =>
      let '(screen, e) := InputBox.draw rect color self screen in
      (kind, screen, e)
  | IsScrollView self =>
      let clip_rect := pygame.get_clip screen in
      let screen := pygame.set_clip rect screen in
      match GameObject.draw rect color screen with
      | (screen, Some e) => (kind, screen, Some e)
      | (screen, None) =>
          match ScrollView.children self with
          | None => (kind, screen, Some (AttributeError "children"))
          | Some children =>
              let loop :=
                fix loop (children : list Widget) (screen : pygame.Surface)
                    : list Widget * pygame.Surface * option exn :=
                  match children with
                  | [] => ([], screen, None)
                  | Obj crect ccolor ckind :: rest =>
                      match pygame.iadd_y crect (ScrollView.scroll_y self) with
                      | Raised e =>
                          (Obj crect ccolor ckind :: rest, screen, Some e)
                      | Ok crect =>
                          match draw crect ccolor ckind screen with
                          | (ckind, screen, Some e) =>
                              (Obj crect ccolor ckind :: rest, screen, Some e)
                          | (ckind, screen, None) =>
                              match pygame.isub_y crect
                                      (ScrollView.scroll_y self) with
                              | Raised e =>
                                  (Obj crect ccolor ckind :: rest, screen,
                                   Some e)
                              | Ok crect =>
                                  let '(rest, screen, e) := loop rest screen in
                                  (Obj crect ccolor ckind :: rest, screen, e)
                              end
                          end
                      end
                  end in
              match loop children screen with
              | (children, screen, Some e) =>
                  (IsScrollView (ScrollView.set_children self children),
                   screen, Some e)
              | (children, screen, None) =>
                  (IsScrollView (ScrollView.set_children self children),
                   pygame.set_clip clip_rect screen, None)
              end
          end
      end
  end.

(** The loop of [ScrollView.draw] on its own, for reasoning. *)
Definition draw_children (scroll_y : Z)
    : list Widget -> pygame.Surface
      -> list Widget * pygame.Surface * option exn :=
  fix loop (children : list Widget) (screen : pygame.Surface) :=
    match children with
    | [] => ([], screen, None)
    | Obj crect ccolor ckind :: rest =>
        match pygame.iadd_y crect scroll_y with
        | Raised e => (Obj crect ccolor ckind :: rest, screen, Some e)
        | Ok crect =>
            match draw crect ccolor ckind screen with
            | (ckind, screen, Some e) =>
                (Obj crect ccolor ckind :: rest, screen, Some e)
            | (ckind, screen, None) =>
                match pygame.isub_y crect scroll_y with
                | Raised e => (Obj crect ccolor ckind :: rest, screen, Some e)
                | Ok crect =>
                    let '(rest, screen, e) := loop rest screen in
                    (Obj crect ccolor ckind :: rest, screen, e)
                end
            end
        end
    end.

(** Every [ScrollView] of the tree has had its [children] assigned. *)
Fixpoint children_assigned (kind : Kind) : bool :=
  match kind with
  | IsScrollView self =>
      match ScrollView.children self with
      | None => false
      | Some children =>
          forallb (fun w => match w with
                            | Obj _ _ ckind => children_assigned ckind
                            end) children
      end
  | _ => true
  end.

(** The four values of a [Rect] are C ints, as pygame keeps them. *)
Definition c_int_rect (r : pygame.Rect) : bool :=
  pygame.is_c_int (pygame.x r) && pygame.is_c_int (pygame.y r)
  && pygame.is_c_int (pygame.width r) && pygame.is_c_int (pygame.height r).

(** The same for the [rect] of every child in the tree. *)
Fixpoint c_int_rects (kind : Kind) : bool :=
  match kind with
  | IsScrollView self =>
      match ScrollView.children self with
      | None => true
      | Some children =>
          forallb (fun w => match w with
                            | Obj crect _ ckind =>
                                c_int_rect crect && c_int_rects ckind
                            end) children
      end
  | _ => true
  end.

(** A surface with the operations [out] applied after its own and its
    clip rectangle left as it is. *)
Definition drawn (out : list pygame.DrawOp) (screen : pygame.Surface)
    : pygame.Surface :=
  pygame.mkSurface (pygame.clipped screen) (pygame.refuses screen)
    (pygame.clip screen) (pygame.ops screen ++ out).

(** A step looks at the operations already applied to the surface no more
    than to add its own after them: what it adds, the clip rectangle it
    leaves and what it raises depend on the surface through its clip
    rectangle and its answers only. *)
Definition appends (a : pygame.Step) : Prop :=
  forall cl rf c, exists c' out e, forall l,
    a (pygame.mkSurface cl rf c l) = (pygame.mkSurface cl rf c' (l ++ out), e).

(** ** Construction

    [Font size] stands for [pygame.font.Font(None, size)], which pygame
    may refuse. *)
Section Construction.

Variable Font : Z -> result pygame.Font.

Definition GameObject__init__ (x y width height : Z) (color : pygame.Color)
    : result Widget :=
  match pygame.Rect_new x y width height with
  | Ok rect => Ok (Obj rect color IsGameObject)
  | Raised e => Raised e
  end.

Definition Button__init__ (x y width height : Z) (color : pygame.Color)
    (text : string) (text_color : pygame.Color) (font_size : Z)
    : result Widget :=
  match GameObject__init__ x y width height color with
  | Ok (Obj rect color _) =>
      match Font font_size with
      | Ok font => Ok (Obj rect color (IsButton (Button.mk text text_color font)))
      | Raised e => Raised e
      end
  | Raised e => Raised e
  end.

Definition Label__init__ (x y width height : Z) (color : pygame.Color)
    (text : string) (text_color : pygame.Color) (font_size : Z)
    : result Widget :=
  match GameObject__init__ x y width height color with
  | Ok (Obj rect color _) =>
      match Font font_size with
      | Ok font => Ok (Obj rect color (IsLabel (Label.mk text text_color font)))
      | Raised e => Raised e
      end
  | Raised e => Raised e
  end.

Definition InputBox__init__ (x y width height : Z) (color : pygame.Color)
    (text_color : pygame.Color) (font_size : Z) : result Widget :=
  match GameObject__init__ x y width height color with
  | Ok (Obj rect color _) =>
      match Font font_size with
      | Ok font =>
          Ok (Obj rect color (IsInputBox (InputBox.mk text_color font ""%string false)))
      | Raised e => Raised e
      end
  | Raised e => Raised e
  end.

Definition ScrollView__init__ (x y width height : Z) (color : pygame.Color)
    (content_height : Z) : result Widget :=
  match GameObject__init__ x y width height color with
  | Ok (Obj rect color _) =>
      Ok (Obj rect color (IsScrollView (ScrollView.mk content_height 0 None)))
  | Raised e => Raised e
  end.

End Construction.

(** ** The engine *)

Module GameEngine.

(** The attributes [handle_events] reads and writes, and the lines printed
    so far.  Each entry of a list is an object of its own. *)
Record t := mk
  { running : bool;
    game_objects : list Widget;
    ui_elements : list Widget;
    stdout : list string }.

Definition add_game_object (game_object : Widget) (self : t) : t :=
  mk (running self) (game_objects self ++ [game_object]) (ui_elements self)
     (stdout self).

Definition add_ui_element (ui_element : Widget) (self : t) : t :=
  mk (running self) (game_objects self) (ui_elements self ++ [ui_element])
     (stdout self).

(** The line printed for a button that was clicked. *)
Definition clicked_line (b : Button.attrs) : string :=
  ("Button '" ++ Button.text b ++ "' clicked!")%string.

(** The loop over [ui_elements] for a left press at [pos]: the lines it
    prints. *)
Definition report_clicks (pos : Z * Z) (ui_elements : list Widget)
    : list string :=
  flat_map (fun ui_element =>
              match ui_element with
              | Obj rect _ (IsButton b) =>
                  if Button.is_clicked rect b pos then [clicked_line b] else []
              | _ => []
              end) ui_elements.

(** The loop that hands [event] to every [InputBox] and [ScrollView]: the
    elements afterwards and the lines printed. *)
Fixpoint forward (event : pygame.Event) (ui_elements : list Widget)
    : list Widget * list string :=
  match ui_elements with
  | [] => ([], [])
  | ui_element :: rest =>
      let '(ui_element, out) :=
        match ui_element with
        | Obj rect color (IsInputBox self) =>
            let '(self, out) := InputBox.handle_event rect self event in
            (Obj rect color (IsInputBox self), out)
        | Obj rect color (IsScrollView self) =>
            (Obj rect color (IsScrollView (ScrollView.handle_event rect self event)),
             [])
        | _ => (ui_element, [])
        end in
      let '(rest, out') := forward event rest in
      (ui_element :: rest, out ++ out')
  end.

(** The body of the loop over the event queue. *)
Definition handle_one (event : pygame.Event) (self : t) : t :=
  let running :=
    match event with
    | pygame.QUIT => false
    | _ => running self
    end in
  let out1 :=
    match event with
    | pygame.MOUSEBUTTONDOWN pos button =>
        if button =? 1 then report_clicks pos (ui_elements self) else []
    | _ => []
    end in
  let '(ui_elements, out2) := forward event (ui_elements self) in
  mk running (game_objects self) ui_elements (stdout self ++ out1 ++ out2).

(** [events] is what [pygame.event.get()] returned for the frame. *)
Definition handle_events (events : list pygame.Event) (self : t) : t :=
  fold_left (fun self event => handle_one event self) events self.

End GameEngine.

(** ** Running a widget over several events *)

(** An [InputBox] after [handle_event] was called for each event in turn. *)
Definition InputBox_after (rect : pygame.Rect) (self : InputBox.attrs)
    (events : list pygame.Event) : InputBox.attrs :=
  fold_left (fun self event => fst (InputBox.handle_event rect self event))
            events self.

(** A [ScrollView] after [handle_event] was called for each event in turn. *)
Definition ScrollView_after {W} (rect : pygame.Rect)
    (self : ScrollView.attrs W) (events : list pygame.Event)
    : ScrollView.attrs W :=
  fold_left (fun self event => ScrollView.handle_event rect self event)
            events self.

(** The key-down events that type characters: one event per pair of a
    key code and the character it carries as [unicode]. *)
Definition typing (keyed : list (Z * Ascii.ascii)) : list pygame.Event :=
  map (fun kc => pygame.KEYDOWN (fst kc) (String (snd kc) EmptyString)) keyed.

(** The buttons among [ui_elements], those a press at [pos] hits, and the
    line printed for one. *)
Definition is_button (w : Widget) : bool :=
  match w with Obj _ _ (IsButton _) => true | _ => false end.

Definition hit (pos : Z * Z) (w : Widget) : bool :=
  match w with
  | Obj rect _ (IsButton b) => Button.is_clicked rect b pos
  | _ => false
  end.

Definition line_of (w : Widget) : string :=
  match w with
  | Obj _ _ (IsButton b) => GameEngine.clicked_line b
  | _ => EmptyString
  end.

(** ** Sample objects: those of the script's example usage *)

(** A font that renders every text but one with a NUL character in it. *)
Definition has_NUL (text : string) : bool :=
  existsb (Ascii.eqb Ascii.zero) (list_ascii_of_string text).

Definition default_font (font_size : Z) : pygame.Font :=
  pygame.mkFont font_size
    (fun text =>
       Ok (Z.of_nat (String.length text) * (font_size / 2), font_size))
    (fun text _ =>
       if has_NUL text
       then Some (ValueError "Text has embedded null character")
       else None).

Definition start_button : Widget :=
  Obj (pygame.mkRect 300 250 200 50) (0, 255, 0)
      (IsButton (Button.mk "Start Game" (255, 255, 255) (default_font 36))).

Definition title_label : Widget :=
  Obj (pygame.mkRect 200 100 400 50) (0, 0, 0)
      (IsLabel (Label.mk "My Awesome Game" (255, 255, 255) (default_font 48))).

Definition input_box_rect : pygame.Rect := pygame.mkRect 300 350 200 40.

Definition input_box_attrs (text : string) (active : bool) : InputBox.attrs :=
  InputBox.mk (0, 0, 0) (default_font 32) text active.

Definition input_box (text : string) (active : bool) : Widget :=
  Obj input_box_rect (255, 255, 255) (IsInputBox (input_box_attrs text active)).

Definition item (i : Z) (text : string) : Widget :=
  Obj (pygame.mkRect 50 (410 + i * 30) 200 30) (0, 0, 0)
      (IsLabel (Label.mk text (255, 255, 255) (default_font 24))).

Definition scroll_view_rect : pygame.Rect := pygame.mkRect 50 400 700 150.

Definition scroll_view_attrs (scroll_y : Z) : ScrollView.attrs Widget :=
  ScrollView.mk 300 scroll_y
    (Some [item 0 "Item 1"; item 1 "Item 2"; item 2 "Item 3"]).

Definition scroll_view (scroll_y : Z) : Widget :=
  Obj scroll_view_rect (100, 100, 100) (IsScrollView (scroll_view_attrs scroll_y)).

Definition engine (ui_elements : list Widget) : GameEngine.t :=
  GameEngine.mk true [] ui_elements [].

(** ** Stated bounds *)

(** The range the specification gives for the scroll offset:
    -(max(contentHeight - bounds.height, 0)) <= scrollOffset <= 0. *)
Definition scroll_bounds {W} (rect : pygame.Rect) (self : ScrollView.attrs W)
    : Prop :=
  - Z.max (ScrollView.content_height self - pygame.height rect) 0
    <= ScrollView.scroll_y self <= 0.

(** The range the code keeps the offset in, whatever the heights. *)
Definition scroll_range {W} (rect : pygame.Rect) (self : ScrollView.attrs W)
    : Prop :=
  - Z.max (ScrollView.content_height self - pygame.height rect) 0
    <= ScrollView.scroll_y self
    <= Z.max (pygame.height rect - ScrollView.content_height self) 0.

(** A scroll view whose content is shorter than its bounds. *)
Definition short_view_rect : pygame.Rect := pygame.mkRect 0 0 100 150.
Definition short_view : ScrollView.attrs Widget := ScrollView.mk 100 0 (Some []).

(** ** The frame loop: [update], [render], [run]

    Besides the attributes of [GameEngine.t] the loop uses the display
    surface [self.screen] and the clock. *)

(** [GameObject.update], which no class overrides: [pass]. *)
Definition GameObject_update (w : Widget) : Widget := w.

Module GameLoop.

Record t := mk
  { engine : GameEngine.t; screen : pygame.Surface; ticks : nat }.

(** How [run] ends: [sys.exit()] after [pygame.quit()], an exception that
    nothing catches, or, when the polls given are used up with [running]
    still set, at the next poll. *)
Inductive Ending := SystemExit | Uncaught (e : exn) | NextPoll.

Definition update (self : t) : t :=
  let e := engine self in
  mk (GameEngine.mk (GameEngine.running e)
        (map GameObject_update (GameEngine.game_objects e))
        (GameEngine.ui_elements e) (GameEngine.stdout e))
     (screen self) (ticks self).

(** The loops of [render]: each object is drawn on the screen in turn; an
    exception ends the loop where it is raised. *)
Fixpoint draw_all (objects : list Widget) (screen : pygame.Surface)
    : list Widget * pygame.Surface * option exn :=
  match objects with
  | [] => ([], screen, None)
  | Obj rect color kind :: rest =>
      match draw rect color kind screen with
      | (kind, screen, Some e) => (Obj rect color kind :: rest, screen, Some e)
      | (kind, screen, None) =>
          let '(rest, screen, e) := draw_all rest screen in
          (Obj rect color kind :: rest, screen, e)
      end
  end.

Definition render (self : t) : t * option exn :=
  let e := engine self in
  let screen := pygame.fill (0, 0, 0) (screen self) in
  match draw_all (GameEngine.game_objects e) screen with
  | (game_objects, screen, Some x) =>
      (mk (GameEngine.mk (GameEngine.running e) game_objects
             (GameEngine.ui_elements e) (GameEngine.stdout e))
          screen (ticks self), Some x)
  | (game_objects, screen, None) =>
      match draw_all (GameEngine.ui_elements e) screen with
      | (ui_elements, screen, Some x) =>
          (mk (GameEngine.mk (GameEngine.running e) game_objects ui_elements
                 (GameEngine.stdout e))
              screen (ticks self), Some x)
      | (ui_elements, screen, None) =>
          (mk (GameEngine.mk (GameEngine.running e) game_objects ui_elements
                 (GameEngine.stdout e))
              (pygame.flip screen) (ticks self), None)
      end
  end.

(** [self.clock.tick(60)]. *)
Definition tick (self : t) : t :=
  mk (engine self) (screen self) (S (ticks self)).

Definition handle_events (events : list pygame.Event) (self : t) : t :=
  mk (GameEngine.handle_events events (engine self)) (screen self) (ticks self).

(** [run]; [polls] holds what the successive calls of [pygame.event.get()]
    return. *)
Fixpoint run (polls : list (list pygame.Event)) (self : t) : t * Ending :=
  if GameEngine.running (engine self) then
    match polls with
    | [] => (self, NextPoll)
    | events :: polls =>
        let self := handle_events events self in
        let self := update self in
        match render self with
        | (self, Some e) => (self, Uncaught e)
        | (self, None) => run polls (tick self)
        end
    end
  else (self, SystemExit).

End GameLoop.

(** ** What the properties of the rest of the code are stated with *)

Definition player : Widget :=
  Obj (pygame.mkRect 100 100 50 50) (255, 0, 0) IsGameObject.

(** A display surface of the given size that refuses nothing and cuts a
    clip rectangle down to its own area. *)
Definition cut (width height : Z) (r : pygame.Rect) : pygame.Rect :=
  let left := Z.max 0 (pygame.x r) in
  let top := Z.max 0 (pygame.y r) in
  let right := Z.min width (pygame.x r + pygame.width r) in
  let bottom := Z.min height (pygame.y r + pygame.height r) in
  pygame.mkRect left top (Z.max 0 (right - left)) (Z.max 0 (bottom - top)).

Definition display (width height : Z) : pygame.Surface :=
  pygame.mkSurface (fun _ r => cut width height r) (fun _ => None)
    (pygame.mkRect 0 0 width height) [].


(** An element of [ui_elements] after the engine handled [events]. *)
Definition widget_after (events : list pygame.Event) (w : Widget) : Widget :=
  match w with
  | Obj rect color (IsInputBox self) =>
      Obj rect color (IsInputBox (InputBox_after rect self events))
  | Obj rect color (IsScrollView self) =>
      Obj rect color (IsScrollView (ScrollView_after rect self events))
  | _ => w
  end.

Definition widget_assigned (w : Widget) : bool :=
  match w with Obj _ _ kind => children_assigned kind end.


Definition is_QUIT (event : pygame.Event) : bool :=
  match event with pygame.QUIT => true | _ => false end.

Definition is_mouse (event : pygame.Event) : bool :=
  match event with pygame.MOUSEBUTTONDOWN _ _ => true | _ => false end.

Definition focused (w : Widget) : bool :=
  match w with
  | Obj _ _ (IsInputBox self) => InputBox.active self
  | _ => false
  end.

(** The line a focused input box prints for a Return key. *)
Definition input_line (w : Widget) : string :=
  match w with
  | Obj _ _ (IsInputBox self) => ("Input: " ++ InputBox.text self)%string
  | _ => EmptyString
  end.

Definition is_KEYDOWN (event : pygame.Event) : bool :=
  match event with pygame.KEYDOWN _ _ => true | _ => false end.

Definition is_OTHER (event : pygame.Event) : bool :=
  match event with pygame.OTHER _ => true | _ => false end.

(** The events for which something may be printed: a press of the left
    button and a Return key. *)
Definition may_print (event : pygame.Event) : bool :=
  match event with
  | pygame.MOUSEBUTTONDOWN _ button => button =? 1
  | pygame.KEYDOWN key _ => key =? pygame.K_RETURN
  | _ => false
  end.

(** Every object the engine draws has the [children] of its scroll views
    assigned. *)
Definition drawable (e : GameEngine.t) : bool :=
  forallb widget_assigned (GameEngine.game_objects e)
  && forallb widget_assigned (GameEngine.ui_elements e).


Definition widget_rect (w : Widget) : pygame.Rect :=
  match w with Obj rect _ _ => rect end.

(** A scroll view one of whose children is a scroll view as
    [ScrollView.__init__] leaves it. *)
Definition nested_view : ScrollView.attrs Widget :=
  ScrollView.mk 300 (-30)
    (Some [item 0 "Item 1";
           Obj (pygame.mkRect 50 440 200 30) (0, 0, 0)
               (IsScrollView (ScrollView.mk 10 0 None))]).

(** * Properties *)

(** ** Strings *)

Lemma slice_to_last_empty : slice_to_last EmptyString = EmptyString.
Proof. reflexivity. Qed.

Lemma append_empty_r (s : string) : (s ++ EmptyString)%string = s.
Proof. induction s as [|c s IH]; simpl; [reflexivity | now rewrite IH]. Qed.

Lemma append_assoc (s t u : string) :
  ((s ++ t) ++ u)%string = (s ++ (t ++ u))%string.
Proof. induction s as [|c s IH]; simpl; [reflexivity | now rewrite IH]. Qed.

Lemma string_of_list_ascii_snoc (cs : list Ascii.ascii) (c : Ascii.ascii) :
  string_of_list_ascii (cs ++ [c])
  = (string_of_list_ascii cs ++ String c EmptyString)%string.
Proof. induction cs as [|d cs IH]; simpl; [reflexivity | now rewrite IH]. Qed.

(** ** InputBox *)

Section InputBoxFacts.

Variable rect : pygame.Rect.
Implicit Types (self : InputBox.attrs) (pos : Z * Z) (key button : Z).

Lemma InputBox_eta self :
  InputBox.mk (InputBox.text_color self) (InputBox.font self)
              (InputBox.text self) (InputBox.active self) = self.
Proof. now destruct self. Qed.

Lemma InputBox_mouse self pos button :
  InputBox.handle_event rect self (pygame.MOUSEBUTTONDOWN pos button)
  = (InputBox.set_active self
       (if pygame.collidepoint rect pos
        then negb (InputBox.active self) else false), []).
Proof.
  unfold InputBox.handle_event.
  now destruct (pygame.collidepoint rect pos).
Qed.

Lemma InputBox_key_unfocused self key unicode :
  InputBox.active self = false ->
  InputBox.handle_event rect self (pygame.KEYDOWN key unicode) = (self, []).
Proof. intros H. unfold InputBox.handle_event. now rewrite H. Qed.

Lemma InputBox_key_other self key unicode :
  InputBox.active self = true ->
  key <> pygame.K_RETURN -> key <> pygame.K_BACKSPACE ->
  InputBox.handle_event rect self (pygame.KEYDOWN key unicode)
  = (InputBox.set_text self (InputBox.text self ++ unicode)%string, []).
Proof.
  intros Ha Hr Hb. unfold InputBox.handle_event. rewrite Ha.
  apply Z.eqb_neq in Hr, Hb. now rewrite Hr, Hb.
Qed.

Lemma InputBox_key_active self key unicode :
  InputBox.active (fst (InputBox.handle_event rect self
                          (pygame.KEYDOWN key unicode)))
  = InputBox.active self.
Proof.
  unfold InputBox.handle_event.
  destruct (InputBox.active self) eqn:Ha; [|exact Ha].
  destruct (key =? pygame.K_RETURN); [exact Ha|].
  destruct (key =? pygame.K_BACKSPACE); exact Ha.
Qed.

Lemma InputBox_typing_snoc self keyed k c :
  InputBox_after rect self (typing (keyed ++ [(k, c)]))
  = fst (InputBox.handle_event rect (InputBox_after rect self (typing keyed))
           (pygame.KEYDOWN k (String c EmptyString))).
Proof.
  unfold InputBox_after, typing. rewrite map_app, fold_left_app. reflexivity.
Qed.

(** Typing into a focused box appends the characters, in order, and keeps
    the focus. *)
Lemma InputBox_typing self keyed :
  InputBox.active self = true ->
  Forall (fun kc => fst kc <> pygame.K_RETURN /\ fst kc <> pygame.K_BACKSPACE)
         keyed ->
  InputBox_after rect self (typing keyed)
  = InputBox.set_text self
      (InputBox.text self ++ string_of_list_ascii (map snd keyed))%string.
Proof.
  intros Ha. induction keyed as [|[k c] keyed IH] using rev_ind; intros Hk.
  - simpl. rewrite append_empty_r. unfold InputBox.set_text.
    now rewrite InputBox_eta.
  - apply Forall_app in Hk as [Hk Hkc]. inversion_clear Hkc as [|? ? [Hr Hb] _].
    rewrite InputBox_typing_snoc, (IH Hk). simpl in Hr, Hb.
    rewrite InputBox_key_other by (simpl; assumption). simpl.
    unfold InputBox.set_text. simpl.
    rewrite map_app. simpl map.
    now rewrite string_of_list_ascii_snoc, append_assoc.
Qed.

End InputBoxFacts.

(** C4. Two presses inside the bounds of an [InputBox], one after the
    other, bring the focus state back to what it was (whatever it was, and
    whichever buttons were pressed): the box ends as it started, so from
    unfocused it ends unfocused. *)
Theorem InputBox_two_presses_inside
    (rect : pygame.Rect) (self : InputBox.attrs)
    (pos1 pos2 : Z * Z) (button1 button2 : Z) :
  pygame.collidepoint rect pos1 = true ->
  pygame.collidepoint rect pos2 = true ->
  let once :=
    fst (InputBox.handle_event rect self
           (pygame.MOUSEBUTTONDOWN pos1 button1)) in
  let twice :=
    fst (InputBox.handle_event rect once
           (pygame.MOUSEBUTTONDOWN pos2 button2)) in
  InputBox.active once = negb (InputBox.active self) /\
  InputBox.active twice = InputBox.active self /\
  twice = self.
Proof.
  intros H1 H2. cbv zeta. rewrite !InputBox_mouse, H1. simpl.
  rewrite H2. simpl. rewrite negb_involutive.
  repeat split. unfold InputBox.set_active. simpl. apply InputBox_eta.
Qed.

Lemma InputBox_two_presses_inside_witness :
  pygame.collidepoint input_box_rect (310, 360) = true /\
  InputBox.active
    (fst (InputBox.handle_event input_box_rect
            (fst (InputBox.handle_event input_box_rect
                    (input_box_attrs "" false)
                    (pygame.MOUSEBUTTONDOWN (310, 360) 1)))
            (pygame.MOUSEBUTTONDOWN (310, 360) 1)))
  = false.
Proof.
  split; [reflexivity|].
  exact (proj1 (proj2 (InputBox_two_presses_inside input_box_rect
                         (input_box_attrs "" false) (310, 360) (310, 360) 1 1
                         eq_refl eq_refl))).
Defined.

(** C8. In a focused [InputBox] whose buffer is empty, key events for the
    characters c1..cn (any keys but Return and Backspace, each carrying its
    character) leave the buffer equal to c1 ... cn; a Return key then
    prints the buffer and empties it; and a Backspace key on an empty
    buffer leaves it empty. *)
Theorem InputBox_type_submit_delete
    (rect : pygame.Rect) (self : InputBox.attrs)
    (keyed : list (Z * Ascii.ascii)) (unicode : string) :
  InputBox.active self = true ->
  InputBox.text self = EmptyString ->
  Forall (fun kc => fst kc <> pygame.K_RETURN /\ fst kc <> pygame.K_BACKSPACE)
         keyed ->
  let typed := InputBox_after rect self (typing keyed) in
  let buffer := string_of_list_ascii (map snd keyed) in
  InputBox.text typed = buffer /\
  InputBox.handle_event rect typed (pygame.KEYDOWN pygame.K_RETURN unicode)
  = (InputBox.set_text typed EmptyString, [("Input: " ++ buffer)%string]) /\
  InputBox.handle_event rect self (pygame.KEYDOWN pygame.K_BACKSPACE unicode)
  = (self, []).
Proof.
  intros Ha Ht Hk. cbv zeta. rewrite (InputBox_typing rect self keyed Ha Hk).
  rewrite Ht. simpl. repeat split.
  - unfold InputBox.handle_event. simpl. now rewrite Ha.
  - unfold InputBox.handle_event. rewrite Ha. simpl.
    rewrite Ht, slice_to_last_empty. unfold InputBox.set_text.
    rewrite <- Ht. now rewrite InputBox_eta.
Qed.

Lemma InputBox_type_submit_delete_witness :
  InputBox.text
    (InputBox_after input_box_rect (input_box_attrs "" true)
       (typing [(104, "h"%char); (105, "i"%char)]))
  = "hi"%string.
Proof.
  refine (proj1 (InputBox_type_submit_delete input_box_rect
                   (input_box_attrs "" true)
                   [(104, "h"%char); (105, "i"%char)] EmptyString
                   eq_refl eq_refl _)).
  repeat constructor; simpl; unfold pygame.K_RETURN, pygame.K_BACKSPACE; lia.
Defined.

(** C9. [InputBox.handle_event] sets the focus on every mouse-button-down
    event, whichever button it carries (the wheel's buttons 4 and 5
    included): the focus is toggled when the position is inside the bounds
    and cleared when it is outside.  The buffer is untouched and nothing is
    printed. *)
Theorem InputBox_press_any_button
    (rect : pygame.Rect) (self : InputBox.attrs) (pos : Z * Z) (button : Z) :
  let '(after, out) :=
    InputBox.handle_event rect self (pygame.MOUSEBUTTONDOWN pos button) in
  InputBox.active after
  = (if pygame.collidepoint rect pos
     then negb (InputBox.active self) else false) /\
  InputBox.text after = InputBox.text self /\
  out = [].
Proof. rewrite InputBox_mouse. simpl. repeat split. Qed.

(** C10. While focused, [InputBox.handle_event] appends the event's
    [unicode] string to the buffer for every key-down event whose key is
    neither Return nor Backspace, printable or not; with an empty [unicode]
    the box is unchanged; and no key-down event changes the focus. *)
Theorem InputBox_key_appends_unicode
    (rect : pygame.Rect) (self : InputBox.attrs) (key : Z) (unicode : string) :
  (InputBox.active self = true ->
   key <> pygame.K_RETURN -> key <> pygame.K_BACKSPACE ->
   InputBox.handle_event rect self (pygame.KEYDOWN key unicode)
   = (InputBox.set_text self (InputBox.text self ++ unicode)%string, []) /\
   InputBox.handle_event rect self (pygame.KEYDOWN key EmptyString)
   = (self, [])) /\
  InputBox.active
    (fst (InputBox.handle_event rect self (pygame.KEYDOWN key unicode)))
  = InputBox.active self.
Proof.
  split; [|apply InputBox_key_active].
  intros Ha Hr Hb. rewrite !InputBox_key_other by assumption. split; auto.
  rewrite append_empty_r. unfold InputBox.set_text. now rewrite InputBox_eta.
Qed.

Lemma InputBox_key_appends_unicode_witness :
  InputBox.handle_event input_box_rect (input_box_attrs "ab" true)
    (pygame.KEYDOWN 271 (String (Ascii.ascii_of_nat 13) EmptyString))
  = (input_box_attrs (String "a" (String "b"
                        (String (Ascii.ascii_of_nat 13) EmptyString))) true,
     []).
Proof.
  refine (proj1 (proj1 (InputBox_key_appends_unicode input_box_rect
                          (input_box_attrs "ab" true) 271
                          (String (Ascii.ascii_of_nat 13) EmptyString))
                   eq_refl _ _));
    unfold pygame.K_RETURN, pygame.K_BACKSPACE; lia.
Defined.

(** ** ScrollView *)

Section ScrollViewFacts.

Context {W : Type}.
Variable rect : pygame.Rect.
Implicit Types (self : ScrollView.attrs W) (event : pygame.Event).

Lemma ScrollView_content_height self event :
  ScrollView.content_height (ScrollView.handle_event rect self event)
  = ScrollView.content_height self.
Proof.
  destruct event as [|pos button| |]; simpl; try reflexivity.
  destruct (pygame.collidepoint rect pos); [|reflexivity].
  destruct (button =? 4), (button =? 5); reflexivity.
Qed.

Lemma ScrollView_children self event :
  ScrollView.children (ScrollView.handle_event rect self event)
  = ScrollView.children self.
Proof.
  destruct event as [|pos button| |]; simpl; try reflexivity.
  destruct (pygame.collidepoint rect pos); [|reflexivity].
  destruct (button =? 4), (button =? 5); reflexivity.
Qed.

Lemma scroll_range_step self event :
  scroll_range rect self ->
  scroll_range rect (ScrollView.handle_event rect self event).
Proof.
  unfold scroll_range. intros H.
  rewrite ScrollView_content_height.
  destruct event as [|pos button| |]; simpl; try exact H.
  destruct (pygame.collidepoint rect pos); [|exact H].
  destruct (button =? 4), (button =? 5); simpl; lia.
Qed.

(** Whatever the events, the offset stays between
    -(max(content_height - height, 0)) and max(height - content_height, 0). *)
Lemma scroll_range_after self events :
  scroll_range rect self ->
  scroll_range rect (ScrollView_after rect self events).
Proof.
  unfold ScrollView_after. revert self.
  induction events as [|event events IH]; intros self H; simpl; [exact H|].
  apply IH, scroll_range_step, H.
Qed.

Lemma ScrollView_after_content_height self events :
  ScrollView.content_height (ScrollView_after rect self events)
  = ScrollView.content_height self.
Proof.
  unfold ScrollView_after. revert self.
  induction events as [|event events IH]; intros self; simpl; [reflexivity|].
  now rewrite IH, ScrollView_content_height.
Qed.

(** When the content is at least as tall as the bounds, the stated bounds
    hold after any sequence of events, from offset 0. *)
Lemma scroll_bounds_tall_content self events :
  pygame.height rect <= ScrollView.content_height self ->
  ScrollView.scroll_y self = 0 ->
  scroll_bounds rect (ScrollView_after rect self events).
Proof.
  intros Hh H0.
  assert (H : scroll_range rect (ScrollView_after rect self events)).
  { apply scroll_range_after. unfold scroll_range. rewrite H0. lia. }
  unfold scroll_range, scroll_bounds in *.
  rewrite ScrollView_after_content_height in *. lia.
Qed.

End ScrollViewFacts.

(** C2. The stated bounds fail for a scroll view whose content is shorter
    than its bounds: with content_height 100 in bounds of height 150, one
    scroll-down event inside the bounds takes the offset from 0 to 50,
    above the upper bound 0. *)
Theorem ScrollView_short_content_scrolls_positive :
  let after :=
    ScrollView_after short_view_rect short_view
      [pygame.MOUSEBUTTONDOWN (10, 10) 5] in
  ScrollView.scroll_y short_view = 0 /\
  ScrollView.scroll_y after = 50 /\
  ~ scroll_bounds short_view_rect after.
Proof.
  cbv zeta. split; [reflexivity|]. split; [reflexivity|].
  unfold scroll_bounds. simpl. lia.
Qed.

(** The scroll-down scenario of the specification: content_height 300 in
    bounds of height 150; each scroll-down lowers the offset by 10 down to
    -150, where it stays. *)
Example scroll_down_scenario :
  map (fun n =>
         ScrollView.scroll_y
           (ScrollView_after scroll_view_rect (scroll_view_attrs 0)
              (repeat (pygame.MOUSEBUTTONDOWN (60, 410) 5) n)))
      [1; 2; 14; 15; 16; 40]%nat
  = [-10; -20; -140; -150; -150; -150].
Proof. reflexivity. Qed.

(** ** Button and the event loop *)

Lemma forward_eq (event : pygame.Event) (w : Widget) (rest : list Widget) :
  GameEngine.forward event (w :: rest)
  = (fst (GameEngine.forward event [w]) ++ fst (GameEngine.forward event rest),
     snd (GameEngine.forward event [w]) ++ snd (GameEngine.forward event rest)).
Proof.
  simpl. destruct (GameEngine.forward event rest) as [rest' out'].
  destruct w as [rect color [ | | |self|self]]; simpl;
    try destruct (InputBox.handle_event rect self event); simpl;
    now rewrite ?app_nil_r.
Qed.

Lemma forward_mouse_silent (pos : Z * Z) (button : Z) (ui : list Widget) :
  snd (GameEngine.forward (pygame.MOUSEBUTTONDOWN pos button) ui) = [].
Proof.
  induction ui as [|w rest IH]; [reflexivity|].
  rewrite forward_eq. simpl snd at 1. rewrite IH, app_nil_r.
  now destruct w as [rect color [ | | |self|self]].
Qed.

Lemma forward_buttons (event : pygame.Event) (ui : list Widget) :
  filter is_button (fst (GameEngine.forward event ui)) = filter is_button ui.
Proof.
  induction ui as [|w rest IH]; [reflexivity|].
  rewrite forward_eq. simpl fst at 1. rewrite filter_app, IH.
  change (w :: rest) with ([w] ++ rest). rewrite filter_app. f_equal.
  destruct w as [rect color [ | | |self|self]]; try reflexivity.
  simpl. now destruct (InputBox.handle_event rect self event).
Qed.

Lemma report_clicks_filter (pos : Z * Z) (ui : list Widget) :
  GameEngine.report_clicks pos ui = map line_of (filter (hit pos) ui).
Proof.
  unfold GameEngine.report_clicks.
  induction ui as [|w rest IH]; [reflexivity|].
  simpl. rewrite IH.
  destruct w as [rect color [|b| | |]]; try reflexivity.
  simpl. now destruct (Button.is_clicked rect b pos).
Qed.

Lemma handle_one_ui_elements (event : pygame.Event) (self : GameEngine.t) :
  GameEngine.ui_elements (GameEngine.handle_one event self)
  = fst (GameEngine.forward event (GameEngine.ui_elements self)).
Proof.
  unfold GameEngine.handle_one.
  now destruct (GameEngine.forward event (GameEngine.ui_elements self)).
Qed.

Lemma handle_one_running (event : pygame.Event) (self : GameEngine.t) :
  GameEngine.running (GameEngine.handle_one event self)
  = match event with
    | pygame.QUIT => false
    | _ => GameEngine.running self
    end.
Proof.
  unfold GameEngine.handle_one.
  now destruct (GameEngine.forward event (GameEngine.ui_elements self)).
Qed.

Lemma handle_events_app (events1 events2 : list pygame.Event)
    (self : GameEngine.t) :
  GameEngine.handle_events (events1 ++ events2) self
  = GameEngine.handle_events events2 (GameEngine.handle_events events1 self).
Proof. unfold GameEngine.handle_events. apply fold_left_app. Qed.

Lemma handle_events_stopped (events : list pygame.Event) (self : GameEngine.t) :
  GameEngine.running self = false ->
  GameEngine.running (GameEngine.handle_events events self) = false.
Proof.
  unfold GameEngine.handle_events. revert self.
  induction events as [|event events IH]; intros self H; simpl; [exact H|].
  apply IH. rewrite handle_one_running. now destruct event.
Qed.

Lemma handle_events_buttons (events : list pygame.Event) (self : GameEngine.t) :
  filter is_button (GameEngine.ui_elements (GameEngine.handle_events events self))
  = filter is_button (GameEngine.ui_elements self).
Proof.
  unfold GameEngine.handle_events. revert self.
  induction events as [|event events IH]; intros self; simpl; [reflexivity|].
  now rewrite IH, handle_one_ui_elements, forward_buttons.
Qed.

(** C6. The hit test of a [Button] is true exactly for the points p with
    p.x in [x, x + width) and p.y in [y, y + height).  It yields a boolean
    and nothing else; and the buttons of the engine are the same objects,
    in the same state, after any queue of events is handled. *)
Theorem Button_is_clicked_half_open
    (rect : pygame.Rect) (self : Button.attrs) (mouse_pos : Z * Z) :
  (Button.is_clicked rect self mouse_pos = true <->
   pygame.x rect <= fst mouse_pos < pygame.x rect + pygame.width rect /\
   pygame.y rect <= snd mouse_pos < pygame.y rect + pygame.height rect) /\
  forall (events : list pygame.Event) (engine : GameEngine.t),
    filter is_button
      (GameEngine.ui_elements (GameEngine.handle_events events engine))
    = filter is_button (GameEngine.ui_elements engine).
Proof.
  split; [|intros; apply handle_events_buttons].
  unfold Button.is_clicked, pygame.collidepoint.
  rewrite !andb_true_iff, !Z.leb_le, !Z.ltb_lt. lia.
Qed.

(** C7. For a press of the left button, the event loop prints one line for
    every [Button] of [ui_elements] whose hit test succeeds, in list order,
    and nothing else: all the buttons that are hit are notified, not only
    the first, and a button that is not hit is not. *)
Theorem left_press_notifies_every_hit_button
    (pos : Z * Z) (self : GameEngine.t) :
  GameEngine.stdout
    (GameEngine.handle_events [pygame.MOUSEBUTTONDOWN pos 1] self)
  = GameEngine.stdout self
    ++ map line_of (filter (hit pos) (GameEngine.ui_elements self)).
Proof.
  unfold GameEngine.handle_events, GameEngine.handle_one. simpl.
  pose proof (forward_mouse_silent pos 1 (GameEngine.ui_elements self)) as H.
  destruct (GameEngine.forward _ _) as [ui out]. simpl in H. subst out.
  simpl. now rewrite app_nil_r, report_clicks_filter.
Qed.

(** The click scenarios of the specification, and two buttons one over the
    other. *)
Example click_scenarios :
  let ui := [start_button; title_label; input_box "" false; scroll_view 0] in
  GameEngine.stdout
    (GameEngine.handle_events [pygame.MOUSEBUTTONDOWN (350, 260) 1] (engine ui))
  = ["Button 'Start Game' clicked!"%string] /\
  GameEngine.stdout
    (GameEngine.handle_events [pygame.MOUSEBUTTONDOWN (10, 10) 1] (engine ui))
  = [] /\
  GameEngine.stdout
    (GameEngine.handle_events [pygame.MOUSEBUTTONDOWN (350, 260) 1]
       (engine [start_button; start_button]))
  = ["Button 'Start Game' clicked!"%string;
     "Button 'Start Game' clicked!"%string].
Proof. repeat split. Qed.

Lemma forward_QUIT (ui : list Widget) :
  GameEngine.forward pygame.QUIT ui = (ui, []).
Proof.
  induction ui as [|w rest IH]; [reflexivity|].
  rewrite forward_eq, IH. simpl.
  now destruct w as [rect color [ | | |self|self]].
Qed.

(** C1, as stated, fails: with a focused input box, a key event that
    follows the quit event in the same queue is still handled, and the
    buffer receives its character. *)
Lemma quit_does_not_end_the_queue :
  let self := engine [input_box "" true] in
  let events := [pygame.QUIT; pygame.KEYDOWN 97 "a"] in
  GameEngine.handle_events events self
  = GameEngine.mk false [] [input_box "a" true] [] /\
  GameEngine.handle_events events self
  <> GameEngine.handle_events [pygame.QUIT] self.
Proof. cbv zeta. split; [reflexivity | discriminate]. Qed.

(** C1, amended. A quit event clears the running flag and changes nothing
    else; the flag stays cleared to the end of the queue; and the events
    that follow it in the queue are handled as usual. *)
Theorem quit_clears_running_and_queue_goes_on
    (before after : list pygame.Event) (self : GameEngine.t) :
  let reached := GameEngine.handle_events before self in
  let stopped :=
    GameEngine.mk false (GameEngine.game_objects reached)
      (GameEngine.ui_elements reached) (GameEngine.stdout reached) in
  GameEngine.handle_events (before ++ [pygame.QUIT]) self = stopped /\
  GameEngine.handle_events (before ++ pygame.QUIT :: after) self
  = GameEngine.handle_events after stopped /\
  GameEngine.running
    (GameEngine.handle_events (before ++ pygame.QUIT :: after) self) = false.
Proof.
  cbv zeta.
  assert (H : GameEngine.handle_events (before ++ [pygame.QUIT]) self
              = GameEngine.mk false
                  (GameEngine.game_objects (GameEngine.handle_events before self))
                  (GameEngine.ui_elements (GameEngine.handle_events before self))
                  (GameEngine.stdout (GameEngine.handle_events before self))).
  { rewrite handle_events_app. unfold GameEngine.handle_events at 1. simpl.
    unfold GameEngine.handle_one. rewrite forward_QUIT. simpl.
    now rewrite app_nil_r. }
  split; [exact H|].
  change (pygame.QUIT :: after) with ([pygame.QUIT] ++ after).
  rewrite app_assoc, handle_events_app, H. split; [reflexivity|].
  now apply handle_events_stopped.
Qed.


(** ** Construction *)

Lemma wrap32_c_int (v : Z) : pygame.is_c_int v = true -> pygame.wrap32 v = v.
Proof.
  unfold pygame.is_c_int, pygame.wrap32. intros H.
  apply andb_true_iff in H as [Hl Hu]. apply Z.leb_le in Hl.
  apply Z.ltb_lt in Hu. rewrite Z.mod_small by lia. lia.
Qed.

Lemma as_c_int_c_int (v : Z) :
  pygame.is_c_int v = true -> pygame.as_c_int v = Some v.
Proof.
  intros H. unfold pygame.as_c_int. rewrite (wrap32_c_int v H).
  unfold pygame.is_c_int in H. apply andb_true_iff in H as [Hl Hu].
  apply Z.leb_le in Hl. apply Z.ltb_lt in Hu.
  replace (-9223372036854775808 <=? v) with true by (symmetry; apply Z.leb_le; lia).
  replace (v <? 9223372036854775808) with true by (symmetry; apply Z.ltb_lt; lia).
  reflexivity.
Qed.

Lemma Rect_new_c_ints (x y width height : Z) :
  pygame.is_c_int x = true -> pygame.is_c_int y = true ->
  pygame.is_c_int width = true -> pygame.is_c_int height = true ->
  pygame.Rect_new x y width height = Ok (pygame.mkRect x y width height).
Proof.
  intros Hx Hy Hw Hh. unfold pygame.Rect_new.
  now rewrite !as_c_int_c_int by assumption.
Qed.

(** C3, as stated, fails: every class accepts a width of 0 and a negative
    height, and the object keeps them. *)
Lemma constructors_accept_non_positive_sizes :
  let Font := fun font_size => Ok (default_font font_size) in
  let rect := pygame.mkRect 100 100 0 (-50) in
  GameObject__init__ 100 100 0 (-50) (255, 0, 0)
  = Ok (Obj rect (255, 0, 0) IsGameObject) /\
  Button__init__ Font 100 100 0 (-50) (0, 255, 0) "Start" (255, 255, 255) 36
  = Ok (Obj rect (0, 255, 0)
          (IsButton (Button.mk "Start" (255, 255, 255) (default_font 36)))) /\
  Label__init__ Font 100 100 0 (-50) (0, 0, 0) "Title" (255, 255, 255) 48
  = Ok (Obj rect (0, 0, 0)
          (IsLabel (Label.mk "Title" (255, 255, 255) (default_font 48)))) /\
  InputBox__init__ Font 100 100 0 (-50) (255, 255, 255) (0, 0, 0) 32
  = Ok (Obj rect (255, 255, 255)
          (IsInputBox (InputBox.mk (0, 0, 0) (default_font 32) "" false))) /\
  ScrollView__init__ 100 100 0 (-50) (100, 100, 100) 300
  = Ok (Obj rect (100, 100, 100) (IsScrollView (ScrollView.mk 300 0 None))).
Proof. cbv zeta. repeat split. Qed.

(** C3, amended. No class checks the width or the height, so a width or
    a height that is zero or negative does not make a construction fail:
    when x, y, width and height are C ints, [GameObject] and [ScrollView]
    are constructed, [Button], [Label] and [InputBox] are constructed when
    their font is (and fail as the font does when it is not), and the
    object's [rect] holds the width and the height given, whatever their
    sign. *)
Theorem construction_does_not_check_sizes
    (Font : Z -> result pygame.Font)
    (x y width height : Z) (color text_color : pygame.Color)
    (text : string) (font_size content_height : Z) :
  pygame.is_c_int x = true -> pygame.is_c_int y = true ->
  pygame.is_c_int width = true -> pygame.is_c_int height = true ->
  let rect := pygame.mkRect x y width height in
  GameObject__init__ x y width height color = Ok (Obj rect color IsGameObject) /\
  ScrollView__init__ x y width height color content_height
  = Ok (Obj rect color (IsScrollView (ScrollView.mk content_height 0 None))) /\
  (forall font, Font font_size = Ok font ->
     Button__init__ Font x y width height color text text_color font_size
     = Ok (Obj rect color (IsButton (Button.mk text text_color font))) /\
     Label__init__ Font x y width height color text text_color font_size
     = Ok (Obj rect color (IsLabel (Label.mk text text_color font))) /\
     InputBox__init__ Font x y width height color text_color font_size
     = Ok (Obj rect color
             (IsInputBox (InputBox.mk text_color font EmptyString false)))) /\
  (forall e, Font font_size = Raised e ->
     Button__init__ Font x y width height color text text_color font_size
     = Raised e /\
     Label__init__ Font x y width height color text text_color font_size
     = Raised e /\
     InputBox__init__ Font x y width height color text_color font_size
     = Raised e).
Proof.
  intros Hx Hy Hw Hh. cbv zeta.
  unfold Button__init__, Label__init__, InputBox__init__, ScrollView__init__,
    GameObject__init__.
  rewrite (Rect_new_c_ints x y width height Hx Hy Hw Hh).
  split; [reflexivity|]. split; [reflexivity|].
  split; intros ? H; rewrite H; repeat split.
Qed.

Lemma construction_does_not_check_sizes_witness :
  Button__init__ (fun font_size => Ok (default_font font_size))
    300 250 (-200) 0 (0, 255, 0) "Start Game" (255, 255, 255) 36
  = Ok (Obj (pygame.mkRect 300 250 (-200) 0) (0, 255, 0)
          (IsButton (Button.mk "Start Game" (255, 255, 255) (default_font 36)))).
Proof.
  exact (proj1 (proj1 (proj2 (proj2
           (construction_does_not_check_sizes
              (fun font_size => Ok (default_font font_size))
              300 250 (-200) 0 (0, 255, 0) (255, 255, 255)
              "Start Game" 36 0 eq_refl eq_refl eq_refl eq_refl)))
           (default_font 36) eq_refl)).
Defined.

(** ** Drawing *)

(** Induction on an object's class that reaches the children of a scroll
    view. *)
Lemma Kind_nested_ind (P : Kind -> Prop) :
  P IsGameObject ->
  (forall self, P (IsButton self)) ->
  (forall self, P (IsLabel self)) ->
  (forall self, P (IsInputBox self)) ->
  (forall content_height scroll_y,
     P (IsScrollView (ScrollView.mk content_height scroll_y None))) ->
  (forall content_height scroll_y children,
     Forall (fun w => match w with Obj _ _ ckind => P ckind end) children ->
     P (IsScrollView (ScrollView.mk content_height scroll_y (Some children)))) ->
  forall kind, P kind.
Proof.
  intros HG HB HL HI HN HS. fix IH 1.
  intros [ | self | self | self | [content_height scroll_y [children|]]];
    [apply HG | apply HB | apply HL | apply HI | | apply HN].
  apply HS.
  exact ((fix all (l : list Widget)
            : Forall (fun w => match w with Obj _ _ ckind => P ckind end) l :=
            match l with
            | [] => Forall_nil _
            | Obj r c ckind :: rest =>
                @Forall_cons _ (fun w => match w with Obj _ _ k => P k end)
                  (Obj r c ckind) rest (IH ckind) (all rest)
            end) children).
Qed.

Lemma draw_ScrollView_eq (rect : pygame.Rect) (color : pygame.Color)
    (self : ScrollView.attrs Widget) (screen : pygame.Surface) :
  draw rect color (IsScrollView self) screen
  = let clip_rect := pygame.get_clip screen in
    let screen := pygame.set_clip rect screen in
    match GameObject.draw rect color screen with
    | (screen, Some e) => (IsScrollView self, screen, Some e)
    | (screen, None) =>
        match ScrollView.children self with
        | None => (IsScrollView self, screen, Some (AttributeError "children"))
        | Some children =>
            match draw_children (ScrollView.scroll_y self) children screen with
            | (children, screen, Some e) =>
                (IsScrollView (ScrollView.set_children self children),
                 screen, Some e)
            | (children, screen, None) =>
                (IsScrollView (ScrollView.set_children self children),
                 pygame.set_clip clip_rect screen, None)
            end
        end
    end.
Proof. reflexivity. Qed.

Lemma draw_children_cons (scroll_y : Z) (crect : pygame.Rect)
    (ccolor : pygame.Color) (ckind : Kind) (rest : list Widget)
    (screen : pygame.Surface) :
  draw_children scroll_y (Obj crect ccolor ckind :: rest) screen
  = match pygame.iadd_y crect scroll_y with
    | Raised e => (Obj crect ccolor ckind :: rest, screen, Some e)
    | Ok crect =>
        match draw crect ccolor ckind screen with
        | (ckind, screen, Some e) =>
            (Obj crect ccolor ckind :: rest, screen, Some e)
        | (ckind, screen, None) =>
            match pygame.isub_y crect scroll_y with
            | Raised e => (Obj crect ccolor ckind :: rest, screen, Some e)
            | Ok crect =>
                let '(rest, screen, e) := draw_children scroll_y rest screen in
                (Obj crect ccolor ckind :: rest, screen, e)
            end
        end
    end.
Proof. reflexivity. Qed.

(** *** Moving a child and moving it back *)

Lemma wrap32_is_c_int (v : Z) : pygame.is_c_int (pygame.wrap32 v) = true.
Proof.
  unfold pygame.is_c_int, pygame.wrap32.
  pose proof (Z.mod_pos_bound (v + 2147483648) 4294967296 eq_refl) as H.
  apply andb_true_iff. split; [apply Z.leb_le | apply Z.ltb_lt]; lia.
Qed.

Lemma wrap32_back (v d : Z) :
  pygame.is_c_int v = true ->
  pygame.wrap32 (pygame.wrap32 (v + d) - d) = v.
Proof.
  intros H. rewrite <- (wrap32_c_int v H) at 2. unfold pygame.wrap32.
  f_equal.
  replace ((v + d + 2147483648) mod 4294967296 - 2147483648 - d + 2147483648)
    with ((v + d + 2147483648) mod 4294967296 - d) by lia.
  rewrite Zminus_mod_idemp_l. f_equal. lia.
Qed.

Lemma as_c_int_wrap (v w : Z) :
  pygame.as_c_int v = Some w -> w = pygame.wrap32 v.
Proof.
  unfold pygame.as_c_int.
  destruct ((-9223372036854775808 <=? v) && (v <? 9223372036854775808));
    [now intros [= <-] | discriminate].
Qed.

Lemma moved_back (r r1 r2 : pygame.Rect) (d : Z) :
  pygame.is_c_int (pygame.y r) = true ->
  pygame.iadd_y r d = Ok r1 ->
  pygame.isub_y r1 d = Ok r2 ->
  r2 = r.
Proof.
  intros Hy. unfold pygame.iadd_y, pygame.isub_y.
  destruct (pygame.as_c_int (pygame.y r + d)) as [v|] eqn:E1; [|discriminate].
  intros [= <-]. simpl.
  destruct (pygame.as_c_int (v - d)) as [w|] eqn:E2; [|discriminate].
  intros [= <-]. apply as_c_int_wrap in E1, E2. subst v w.
  rewrite (wrap32_back _ _ Hy). now destruct r.
Qed.

(** *** Each step adds to what the surface holds *)

Lemma appends_request (op : pygame.DrawOp) : appends (pygame.request op).
Proof.
  intros cl rf c. unfold pygame.request. simpl.
  destruct (rf op) as [e|].
  - exists c, [], (Some e). intros l. now rewrite app_nil_r.
  - exists c, [op], None. reflexivity.
Qed.

Lemma appends_font_render (f : pygame.Font) (text : string)
    (col : pygame.Color) :
  appends (pygame.font_render f text col).
Proof.
  intros cl rf c. exists c, [], (pygame.render f text col). intros l.
  unfold pygame.font_render. now rewrite app_nil_r.
Qed.

Lemma appends_and_then (a b : pygame.Step) :
  appends a -> appends b -> appends (a ;; b).
Proof.
  intros Ha Hb cl rf c. destruct (Ha cl rf c) as (c1 & out1 & e1 & H1).
  destruct e1 as [e1|].
  - exists c1, out1, (Some e1). intros l. unfold pygame.and_then.
    now rewrite H1.
  - destruct (Hb cl rf c1) as (c2 & out2 & e2 & H2).
    exists c2, (out1 ++ out2), e2. intros l. unfold pygame.and_then.
    rewrite H1, H2. now rewrite app_assoc.
Qed.

Lemma appends_GameObject_draw (rect : pygame.Rect) (color : pygame.Color) :
  appends (GameObject.draw rect color).
Proof. apply appends_request. Qed.

Lemma appends_Button_draw (rect : pygame.Rect) (color : pygame.Color)
    (self : Button.attrs) :
  appends (Button.draw rect color self).
Proof.
  unfold Button.draw.
  repeat apply appends_and_then;
    [apply appends_GameObject_draw | apply appends_font_render
    | apply appends_request].
Qed.

Lemma appends_Label_draw (rect : pygame.Rect) (color : pygame.Color)
    (self : Label.attrs) :
  appends (Label.draw rect color self).
Proof.
  unfold Label.draw.
  repeat apply appends_and_then;
    [apply appends_GameObject_draw | apply appends_font_render
    | apply appends_request].
Qed.

Lemma appends_InputBox_draw (rect : pygame.Rect) (color : pygame.Color)
    (self : InputBox.attrs) :
  appends (InputBox.draw rect color self).
Proof.
  unfold InputBox.draw.
  repeat apply appends_and_then;
    [apply appends_GameObject_draw | apply appends_font_render
    | apply appends_request | ].
  destruct (InputBox.active self).
  - destruct (pygame.size (InputBox.font self) (InputBox.text self))
      as [[w h]|e].
    + apply appends_request.
    + intros cl rf c. exists c, [], (Some e). intros l. now rewrite app_nil_r.
  - intros cl rf c. exists c, [], None. intros l. now rewrite app_nil_r.
Qed.

Lemma draw_children_appends (scroll_y : Z) (children : list Widget) :
  Forall (fun w =>
            match w with
            | Obj _ _ ckind =>
                forall rect color cl rf c, exists k' c' out e, forall l,
                  draw rect color ckind (pygame.mkSurface cl rf c l)
                  = (k', pygame.mkSurface cl rf c' (l ++ out), e)
            end) children ->
  forall cl rf c, exists children' c' out e, forall l,
    draw_children scroll_y children (pygame.mkSurface cl rf c l)
    = (children', pygame.mkSurface cl rf c' (l ++ out), e).
Proof.
  induction 1 as [|[r col k] rest Hk _ IH]; intros cl rf c.
  - exists [], c, [], None. intros l. simpl. now rewrite app_nil_r.
  - destruct (pygame.iadd_y r scroll_y) as [r1|e0] eqn:E1.
    + destruct (Hk r1 col cl rf c) as (k1 & c1 & out1 & e1 & H1).
      destruct e1 as [e1|].
      * exists (Obj r1 col k1 :: rest), c1, out1, (Some e1). intros l.
        now rewrite draw_children_cons, E1, H1.
      * destruct (pygame.isub_y r1 scroll_y) as [r2|e2] eqn:E2.
        -- destruct (IH cl rf c1) as (rest' & c2 & out2 & e & H2).
           exists (Obj r2 col k1 :: rest'), c2, (out1 ++ out2), e. intros l.
           rewrite draw_children_cons, E1, H1, E2, H2. now rewrite app_assoc.
        -- exists (Obj r1 col k1 :: rest), c1, out1, (Some e2). intros l.
           now rewrite draw_children_cons, E1, H1, E2.
    + exists (Obj r col k :: rest), c, [], (Some e0). intros l.
      rewrite draw_children_cons, E1. now rewrite app_nil_r.
Qed.

Lemma step_draw_appends (a : pygame.Step) (kind : Kind) :
  appends a ->
  forall cl rf c, exists k' c' out e, forall l,
    (let '(screen, e) := a (pygame.mkSurface cl rf c l) in (kind, screen, e))
    = (k', pygame.mkSurface cl rf c' (l ++ out), e).
Proof.
  intros Ha cl rf c. destruct (Ha cl rf c) as (c1 & out & e & H).
  exists kind, c1, out, e. intros l. now rewrite H.
Qed.

(** What [draw] adds to the surface, the clip rectangle it leaves, the
    object it leaves and what it raises do not depend on the operations
    the surface already holds. *)
Lemma draw_appends (kind : Kind) :
  forall rect color cl rf c, exists k' c' out e, forall l,
    draw rect color kind (pygame.mkSurface cl rf c l)
    = (k', pygame.mkSurface cl rf c' (l ++ out), e).
Proof.
  induction kind as [ |self|self|self|content_height scroll_y
                     |content_height scroll_y children IH]
    using Kind_nested_ind; intros rect color cl rf c.
  - apply (step_draw_appends _ IsGameObject), appends_GameObject_draw.
  - apply (step_draw_appends _ (IsButton self)), appends_Button_draw.
  - apply (step_draw_appends _ (IsLabel self)), appends_Label_draw.
  - apply (step_draw_appends _ (IsInputBox self)), appends_InputBox_draw.
  - destruct (appends_GameObject_draw rect color cl rf (cl c rect))
      as (c1 & out1 & e1 & H1).
    destruct e1 as [e1|].
    + eexists _, c1, ([pygame.SetClip rect] ++ out1), (Some e1). intros l.
      rewrite draw_ScrollView_eq. cbv zeta. unfold pygame.set_clip. simpl.
      rewrite H1. now rewrite <- app_assoc.
    + eexists _, c1, ([pygame.SetClip rect] ++ out1), _. intros l.
      rewrite draw_ScrollView_eq. cbv zeta. unfold pygame.set_clip. simpl.
      rewrite H1. now rewrite <- app_assoc.
  - destruct (appends_GameObject_draw rect color cl rf (cl c rect))
      as (c1 & out1 & e1 & H1).
    destruct e1 as [e1|].
    + eexists _, c1, ([pygame.SetClip rect] ++ out1), (Some e1). intros l.
      rewrite draw_ScrollView_eq. cbv zeta. unfold pygame.set_clip. simpl.
      rewrite H1. now rewrite <- app_assoc.
    + destruct (draw_children_appends scroll_y children IH cl rf c1)
        as (kids & c2 & out2 & e2 & H2).
      destruct e2 as [e2|].
      * eexists _, c2, ([pygame.SetClip rect] ++ out1 ++ out2), (Some e2).
        intros l.
        rewrite draw_ScrollView_eq. cbv zeta. unfold pygame.set_clip. simpl.
        rewrite H1, H2. now rewrite <- !app_assoc.
      * eexists _, (cl c2 c),
          ([pygame.SetClip rect] ++ out1 ++ out2 ++ [pygame.SetClip c]), None.
        intros l.
        rewrite draw_ScrollView_eq. cbv zeta.
        unfold pygame.set_clip, pygame.get_clip. simpl.
        rewrite H1, H2. simpl. now rewrite <- !app_assoc.
Qed.

(** *** A draw that raises nothing leaves the object as it was *)

Lemma draw_children_same (scroll_y : Z) (children : list Widget) :
  Forall (fun w =>
            match w with
            | Obj _ _ ckind =>
                c_int_rects ckind = true ->
                forall rect color s k' s',
                  draw rect color ckind s = (k', s', None) -> k' = ckind
            end) children ->
  forallb (fun w => match w with
                    | Obj crect _ ckind => c_int_rect crect && c_int_rects ckind
                    end) children = true ->
  forall s children' s',
    draw_children scroll_y children s = (children', s', None) ->
    children' = children.
Proof.
  induction 1 as [|[r col k] rest Hk _ IH]; intros Hc s children' s' Hd.
  - simpl in Hd. now inversion Hd.
  - simpl in Hc. apply andb_true_iff in Hc as [Hc Hrest].
    apply andb_true_iff in Hc as [Hr Hck].
    rewrite draw_children_cons in Hd.
    destruct (pygame.iadd_y r scroll_y) as [r1|e0] eqn:E1; [|discriminate Hd].
    destruct (draw r1 col k s) as [[k1 s1] e1] eqn:E.
    destruct e1 as [e1|]; [discriminate Hd|].
    destruct (pygame.isub_y r1 scroll_y) as [r2|e2] eqn:E2; [|discriminate Hd].
    destruct (draw_children scroll_y rest s1) as [[rest' s2] e3] eqn:E3.
    inversion Hd; subst.
    rewrite (Hk Hck _ _ _ _ _ E), (IH Hrest _ _ _ E3).
    f_equal. f_equal.
    apply (moved_back r r1 r2 scroll_y); [|exact E1|exact E2].
    unfold c_int_rect in Hr. apply andb_true_iff in Hr as [Hr _].
    apply andb_true_iff in Hr as [Hr _]. now apply andb_true_iff in Hr as [_ Hr].
Qed.

Lemma step_draw_same (a : pygame.Step) (kind : Kind) (s : pygame.Surface)
    (k' : Kind) (s' : pygame.Surface) (e : option exn) :
  (let '(screen, e) := a s in (kind, screen, e)) = (k', s', e) -> k' = kind.
Proof. destruct (a s). now intros [= <- _ _]. Qed.

Lemma draw_same (kind : Kind) :
  c_int_rects kind = true ->
  forall rect color s k' s',
    draw rect color kind s = (k', s', None) -> k' = kind.
Proof.
  induction kind as [ |self|self|self|content_height scroll_y
                     |content_height scroll_y children IH]
    using Kind_nested_ind; intros Hc rect color s k' s' Hd;
    try (now apply step_draw_same in Hd).
  - rewrite draw_ScrollView_eq in Hd. cbv zeta in Hd.
    destruct (GameObject.draw rect color (pygame.set_clip rect s))
      as [s1 [e1|]]; discriminate Hd.
  - rewrite draw_ScrollView_eq in Hd. cbv zeta in Hd.
    destruct (GameObject.draw rect color (pygame.set_clip rect s))
      as [s1 [e1|]]; [discriminate Hd|].
    cbn [ScrollView.children ScrollView.scroll_y] in Hd.
    destruct (draw_children scroll_y children s1) as [[kids s2] e2] eqn:E.
    destruct e2 as [e2|]; [discriminate Hd|].
    inversion Hd; subst.
    simpl in Hc. now rewrite (draw_children_same _ _ IH Hc _ _ _ E).
Qed.

Lemma draw_appends_all (children : list Widget) :
  Forall (fun w =>
            match w with
            | Obj _ _ ckind =>
                forall rect color cl rf c, exists k' c' out e, forall l,
                  draw rect color ckind (pygame.mkSurface cl rf c l)
                  = (k', pygame.mkSurface cl rf c' (l ++ out), e)
            end) children.
Proof.
  induction children as [|[r col k] rest IH]; constructor;
    [apply draw_appends | exact IH].
Qed.

(** C5, as stated, fails: a child that raises while it is drawn is left
    moved by [scroll_y].  Here the second child is a scroll view as its
    constructor leaves it, whose [draw] raises AttributeError: after the
    call its [rect.y] is 410, not 440. *)
Lemma ScrollView_draw_leaves_raising_child_moved :
  let '(after, _, e) :=
    draw scroll_view_rect (100, 100, 100) (IsScrollView nested_view)
         (display 800 600) in
  e = Some (AttributeError "children") /\
  after = IsScrollView
            (ScrollView.mk 300 (-30)
               (Some [item 0 "Item 1";
                      Obj (pygame.mkRect 50 410 200 30) (0, 0, 0)
                          (IsScrollView (ScrollView.mk 10 0 None))])) /\
  after <> IsScrollView nested_view.
Proof. vm_compute. repeat split. discriminate. Qed.

(** C5, amended. A [ScrollView.draw] that raises nothing leaves every
    child's stored [rect] unchanged (the rects holding C ints, as pygame
    keeps them): the scroll view after the call is the scroll view before
    it.  When moreover the clip rectangle in force before the call is one
    that [set_clip] stores as it is, the clip rectangle is put back, and
    drawing a second time raises nothing either, leaves the scroll view
    unchanged again and applies the same operations again. *)
Theorem ScrollView_draw_leaves_no_residue
    (rect : pygame.Rect) (color : pygame.Color)
    (self : ScrollView.attrs Widget)
    (screen screen1 : pygame.Surface) (after : Kind) :
  c_int_rects (IsScrollView self) = true ->
  draw rect color (IsScrollView self) screen = (after, screen1, None) ->
  after = IsScrollView self /\
  ((forall c, pygame.clipped screen c (pygame.clip screen) = pygame.clip screen) ->
   exists out,
     screen1 = drawn out screen /\
     draw rect color (IsScrollView self) screen1
     = (IsScrollView self, drawn out screen1, None)).
Proof.
  intros Hc Hd.
  assert (Ha : after = IsScrollView self) by apply (draw_same _ Hc _ _ _ _ _ Hd).
  split; [exact Ha|]. subst after. intros Hclip.
  destruct screen as [cl rf c l]. simpl in Hclip.
  destruct (draw_appends (IsScrollView self) rect color cl rf c)
    as (k' & c' & out & e & H).
  pose proof (H l) as Hl. rewrite Hd in Hl. inversion Hl; subst k' e screen1.
  assert (Hc' : c' = c).
  { rewrite draw_ScrollView_eq in Hd. cbv zeta in Hd.
    destruct (appends_GameObject_draw rect color cl rf (cl c rect))
      as (c1 & out1 & e1 & H1).
    unfold pygame.set_clip in Hd. simpl in Hd. rewrite H1 in Hd.
    destruct e1 as [e1|]; [discriminate Hd|].
    destruct (ScrollView.children self) as [children|]; [|discriminate Hd].
    destruct (draw_children_appends (ScrollView.scroll_y self) children
                (draw_appends_all children) cl rf c1)
      as (kids & c2 & out2 & e2 & H2).
    rewrite H2 in Hd. destruct e2 as [e2|]; [discriminate Hd|].
    unfold pygame.get_clip in Hd. simpl in Hd.
    inversion Hd. now rewrite Hclip. }
  subst c'. exists out. split; [reflexivity|]. apply (H (l ++ out)).
Qed.

Lemma ScrollView_draw_leaves_no_residue_witness :
  exists out,
    draw scroll_view_rect (100, 100, 100) (IsScrollView (scroll_view_attrs (-30)))
      (display 800 600)
    = (IsScrollView (scroll_view_attrs (-30)), drawn out (display 800 600), None) /\
    draw scroll_view_rect (100, 100, 100) (IsScrollView (scroll_view_attrs (-30)))
      (drawn out (display 800 600))
    = (IsScrollView (scroll_view_attrs (-30)),
       drawn out (drawn out (display 800 600)), None).
Proof.
  destruct (draw scroll_view_rect (100, 100, 100)
              (IsScrollView (scroll_view_attrs (-30))) (display 800 600))
    as [[after screen1] e] eqn:E.
  assert (He : e = None).
  { change e with (snd (after, screen1, e)). rewrite <- E. vm_compute. reflexivity. }
  subst e.
  destruct (ScrollView_draw_leaves_no_residue scroll_view_rect (100, 100, 100)
              (scroll_view_attrs (-30)) (display 800 600) screen1 after
              eq_refl E) as [Ha Hout].
  destruct (Hout (fun c => eq_refl)) as [out [H1 H2]].
  exists out. subst. split; [reflexivity | exact H2].
Defined.

(** What the example's scroll view, scrolled by -30, asks of the screen:
    its child is drawn 30 higher, under the scroll view's clip rectangle,
    and the clip rectangle is set back. *)
Example scroll_view_drawing :
  draw scroll_view_rect (100, 100, 100)
    (IsScrollView (ScrollView.mk 300 (-30) (Some [item 0 "A"])))
    (display 800 600)
  = (IsScrollView (ScrollView.mk 300 (-30) (Some [item 0 "A"])),
     drawn [pygame.SetClip scroll_view_rect;
            pygame.DrawRect (100, 100, 100) scroll_view_rect;
            pygame.DrawRect (0, 0, 0) (pygame.mkRect 50 380 200 30);
            pygame.Blit "A" 24 (255, 255, 255)
              (pygame.CenteredOn (pygame.mkRect 50 380 200 30));
            pygame.SetClip (pygame.mkRect 0 0 800 600)]
       (display 800 600),
     None).
Proof. reflexivity. Qed.
(** * Further properties of the code *)

(** ** InputBox *)

Lemma substring_prefix (s t : string) :
  substring 0 (String.length s) (s ++ t)%string = s.
Proof.
  induction s as [|c s IH]; simpl.
  - now destruct t.
  - now rewrite IH.
Qed.

Lemma length_snoc (s : string) (c : ascii) :
  String.length (s ++ String c EmptyString)%string = S (String.length s).
Proof. induction s as [|d s IH]; simpl; [reflexivity | now rewrite IH]. Qed.

Lemma slice_to_last_snoc (s : string) (c : ascii) :
  slice_to_last (s ++ String c EmptyString)%string = s.
Proof.
  unfold slice_to_last. rewrite length_snoc.
  replace (S (String.length s) - 1)%nat with (String.length s) by lia.
  apply substring_prefix.
Qed.

Lemma InputBox_after_app (rect : pygame.Rect) (self : InputBox.attrs)
    (events1 events2 : list pygame.Event) :
  InputBox_after rect self (events1 ++ events2)
  = InputBox_after rect (InputBox_after rect self events1) events2.
Proof. unfold InputBox_after. apply fold_left_app. Qed.

Lemma InputBox_backspace (rect : pygame.Rect) (self : InputBox.attrs)
    (unicode : string) :
  InputBox.active self = true ->
  InputBox.handle_event rect self (pygame.KEYDOWN pygame.K_BACKSPACE unicode)
  = (InputBox.set_text self (slice_to_last (InputBox.text self)), []).
Proof. intros Ha. unfold InputBox.handle_event. now rewrite Ha. Qed.

(** X1. Backspace undoes typing: in a focused [InputBox], after the key
    events that type n characters, n Backspace key events give back the
    box as it was before the typing, whatever its buffer held. *)
Theorem InputBox_backspaces_undo_typing
    (rect : pygame.Rect) (self : InputBox.attrs)
    (keyed : list (Z * ascii)) (unicode : string) :
  InputBox.active self = true ->
  Forall (fun kc => fst kc <> pygame.K_RETURN /\ fst kc <> pygame.K_BACKSPACE)
         keyed ->
  InputBox_after rect self
    (typing keyed
     ++ repeat (pygame.KEYDOWN pygame.K_BACKSPACE unicode) (List.length keyed))
  = self.
Proof.
  intros Ha. induction keyed as [|[k c] keyed IH] using rev_ind; intros Hk.
  - reflexivity.
  - apply Forall_app in Hk as [Hk Hkc].
    rewrite length_app, Nat.add_comm. simpl repeat.
    unfold typing. rewrite map_app. simpl map. rewrite <- app_assoc.
    simpl app at 2. fold (typing keyed).
    rewrite InputBox_after_app.
    change (?a :: ?b :: ?l) with ([a; b] ++ l).
    rewrite InputBox_after_app.
    rewrite <- (IH Hk) at 2. rewrite (InputBox_after_app _ _ (typing keyed)).
    f_equal.
    set (typed := InputBox_after rect self (typing keyed)).
    assert (Ht : InputBox.active typed = true).
    { unfold typed. now rewrite (InputBox_typing rect self keyed Ha Hk). }
    inversion_clear Hkc as [|? ? [Hr Hb] _]. simpl in Hr, Hb.
    change (InputBox_after rect typed
              [pygame.KEYDOWN k (String c EmptyString);
               pygame.KEYDOWN pygame.K_BACKSPACE unicode])
      with (fst (InputBox.handle_event rect
                   (fst (InputBox.handle_event rect typed
                           (pygame.KEYDOWN k (String c EmptyString))))
                   (pygame.KEYDOWN pygame.K_BACKSPACE unicode))).
    rewrite (InputBox_key_other rect typed k _ Ht Hr Hb).
    cbn [fst]. rewrite InputBox_backspace by exact Ht. cbn [fst].
    unfold InputBox.set_text. simpl.
    rewrite slice_to_last_snoc. apply InputBox_eta.
Qed.

Lemma InputBox_backspaces_undo_typing_witness :
  InputBox_after input_box_rect (input_box_attrs "ab" true)
    (typing [(99, "c"%char); (100, "d"%char)]
     ++ repeat (pygame.KEYDOWN pygame.K_BACKSPACE EmptyString) 2)
  = input_box_attrs "ab" true.
Proof.
  refine (InputBox_backspaces_undo_typing input_box_rect
            (input_box_attrs "ab" true)
            [(99, "c"%char); (100, "d"%char)] EmptyString eq_refl _).
  repeat constructor; simpl; unfold pygame.K_RETURN, pygame.K_BACKSPACE; lia.
Defined.

(** X2. An unfocused [InputBox] ignores everything but mouse presses:
    after any events none of which is a mouse-button-down event it is as
    it was, and it printed nothing for any of them. *)
Theorem InputBox_unfocused_ignores_events
    (rect : pygame.Rect) (self : InputBox.attrs) (events : list pygame.Event) :
  InputBox.active self = false ->
  Forall (fun event => is_mouse event = false) events ->
  InputBox_after rect self events = self /\
  Forall (fun event => InputBox.handle_event rect self event = (self, []))
         events.
Proof.
  intros Ha Hm. induction Hm as [|event events He _ IH].
  - split; constructor.
  - assert (H1 : InputBox.handle_event rect self event = (self, [])).
    { destruct event; try discriminate He; try reflexivity.
      now apply InputBox_key_unfocused. }
    destruct IH as [IH1 IH2]. split; [|constructor; assumption].
    unfold InputBox_after in *. simpl. now rewrite H1.
Qed.

Lemma InputBox_unfocused_ignores_events_witness :
  InputBox_after input_box_rect (input_box_attrs "" false)
    [pygame.KEYDOWN 97 "a"; pygame.QUIT; pygame.OTHER 1024;
     pygame.KEYDOWN pygame.K_RETURN EmptyString]
  = input_box_attrs "" false.
Proof.
  refine (proj1 (InputBox_unfocused_ignores_events input_box_rect
                   (input_box_attrs "" false) _ eq_refl _)).
  repeat constructor.
Defined.

(** X3. The buffer of an [InputBox] changes only by a key-down event
    received while the box is focused: any event after which the text
    differs is a key-down event, and the box was focused before it and is
    focused after it. *)
Theorem InputBox_text_changes_only_focused
    (rect : pygame.Rect) (self : InputBox.attrs) (event : pygame.Event) :
  InputBox.text (fst (InputBox.handle_event rect self event))
  <> InputBox.text self ->
  (exists key unicode, event = pygame.KEYDOWN key unicode) /\
  InputBox.active self = true /\
  InputBox.active (fst (InputBox.handle_event rect self event)) = true.
Proof.
  intros H. destruct event as [|pos button|key unicode|type].
  - now contradiction H.
  - rewrite InputBox_mouse in H. now contradiction H.
  - destruct (InputBox.active self) eqn:Ha.
    + split; [now exists key, unicode|]. split; [reflexivity|].
      now rewrite InputBox_key_active.
    + rewrite InputBox_key_unfocused in H by exact Ha. now contradiction H.
  - now contradiction H.
Qed.

Lemma InputBox_text_changes_only_focused_witness :
  InputBox.active (input_box_attrs "ab" true) = true.
Proof.
  refine (proj1 (proj2 (InputBox_text_changes_only_focused input_box_rect
                          (input_box_attrs "ab" true)
                          (pygame.KEYDOWN pygame.K_BACKSPACE EmptyString) _))).
  discriminate.
Defined.

(** ** ScrollView *)

(** X4. Whatever the two heights, the offset of a [ScrollView] that
    starts at 0 stays, through any sequence of events, between
    -(max(content_height - height, 0)) and max(height - content_height, 0). *)
Theorem ScrollView_offset_range
    (rect : pygame.Rect) (self : ScrollView.attrs Widget)
    (events : list pygame.Event) :
  ScrollView.scroll_y self = 0 ->
  let after := ScrollView_after rect self events in
  - Z.max (ScrollView.content_height self - pygame.height rect) 0
  <= ScrollView.scroll_y after
  <= Z.max (pygame.height rect - ScrollView.content_height self) 0.
Proof.
  intros H0. cbv zeta.
  assert (H : scroll_range rect (ScrollView_after rect self events)).
  { apply scroll_range_after. unfold scroll_range. rewrite H0. lia. }
  unfold scroll_range in H.
  now rewrite ScrollView_after_content_height in H.
Qed.

Lemma ScrollView_offset_range_witness :
  - Z.max (100 - 150) 0
  <= ScrollView.scroll_y
       (ScrollView_after short_view_rect short_view
          [pygame.MOUSEBUTTONDOWN (10, 10) 5; pygame.MOUSEBUTTONDOWN (10, 10) 5])
  <= Z.max (150 - 100) 0.
Proof.
  exact (ScrollView_offset_range short_view_rect short_view
           [pygame.MOUSEBUTTONDOWN (10, 10) 5; pygame.MOUSEBUTTONDOWN (10, 10) 5]
           eq_refl).
Defined.

(** X5. When the content is at least as tall as the view, the offset of a
    [ScrollView] that starts at 0 satisfies
    -(content_height - height) <= scroll_y <= 0 after any sequence of
    events. *)
Theorem ScrollView_offset_bounds_tall_content
    (rect : pygame.Rect) (self : ScrollView.attrs Widget)
    (events : list pygame.Event) :
  pygame.height rect <= ScrollView.content_height self ->
  ScrollView.scroll_y self = 0 ->
  - (ScrollView.content_height self - pygame.height rect)
  <= ScrollView.scroll_y (ScrollView_after rect self events) <= 0.
Proof.
  intros Hh H0.
  pose proof (scroll_bounds_tall_content rect self events Hh H0) as H.
  unfold scroll_bounds in H.
  rewrite ScrollView_after_content_height in H. lia.
Qed.

Lemma ScrollView_offset_bounds_tall_content_witness :
  - (300 - 150)
  <= ScrollView.scroll_y
       (ScrollView_after scroll_view_rect (scroll_view_attrs 0)
          (repeat (pygame.MOUSEBUTTONDOWN (60, 410) 5) 20))
  <= 0.
Proof.
  refine (ScrollView_offset_bounds_tall_content scroll_view_rect
            (scroll_view_attrs 0)
            (repeat (pygame.MOUSEBUTTONDOWN (60, 410) 5) 20) _ eq_refl).
  simpl. lia.
Defined.

Lemma ScrollView_after_snoc {W} (rect : pygame.Rect)
    (self : ScrollView.attrs W) (events : list pygame.Event)
    (event : pygame.Event) :
  ScrollView_after rect self (events ++ [event])
  = ScrollView.handle_event rect (ScrollView_after rect self events) event.
Proof. unfold ScrollView_after. now rewrite fold_left_app. Qed.

Lemma repeat_snoc {A} (a : A) (n : nat) : repeat a (S n) = repeat a n ++ [a].
Proof. induction n as [|n IH]; simpl; [reflexivity | now rewrite <- IH]. Qed.

(** X6. Scrolling down n times inside the bounds of a [ScrollView] whose
    content is at least as tall as the view takes the offset from 0 to
    max(-10 n, -(content_height - height)): 10 lower each time, until
    the bottom of the content is reached, where it stays. *)
Theorem ScrollView_scroll_down_n
    (rect : pygame.Rect) (self : ScrollView.attrs Widget)
    (pos : Z * Z) (n : nat) :
  pygame.collidepoint rect pos = true ->
  pygame.height rect <= ScrollView.content_height self ->
  ScrollView.scroll_y self = 0 ->
  ScrollView_after rect self (repeat (pygame.MOUSEBUTTONDOWN pos 5) n)
  = ScrollView.set_scroll_y self
      (Z.max (- 10 * Z.of_nat n)
             (- (ScrollView.content_height self - pygame.height rect))).
Proof.
  intros Hp Hh H0. induction n as [|n IH].
  - destruct self as [ch sy kids]. unfold ScrollView.set_scroll_y.
    simpl in *. subst sy. f_equal. lia.
  - rewrite repeat_snoc, ScrollView_after_snoc, IH, Nat2Z.inj_succ.
    unfold ScrollView.handle_event. rewrite Hp.
    change (5 =? 4) with false. change (5 =? 5) with true.
    unfold ScrollView.set_scroll_y.
    cbn [ScrollView.content_height ScrollView.scroll_y ScrollView.children].
    f_equal. lia.
Qed.

Lemma ScrollView_scroll_down_n_witness :
  ScrollView_after scroll_view_rect (scroll_view_attrs 0)
    (repeat (pygame.MOUSEBUTTONDOWN (60, 410) 5) 17)
  = scroll_view_attrs (-150).
Proof.
  exact (ScrollView_scroll_down_n scroll_view_rect (scroll_view_attrs 0)
           (60, 410) 17 eq_refl ltac:(simpl; lia) eq_refl).
Defined.

(** X7. [ScrollView.handle_event] never touches the content height or the
    children, and moves the offset only for a mouse-button-down event
    inside the bounds that carries button 4 or 5: an event after which
    the offset differs is such an event. *)
Theorem ScrollView_only_wheel_inside_scrolls
    (rect : pygame.Rect) (self : ScrollView.attrs Widget)
    (event : pygame.Event) :
  let after := ScrollView.handle_event rect self event in
  ScrollView.content_height after = ScrollView.content_height self /\
  ScrollView.children after = ScrollView.children self /\
  (ScrollView.scroll_y after <> ScrollView.scroll_y self ->
   exists pos button,
     event = pygame.MOUSEBUTTONDOWN pos button /\
     pygame.collidepoint rect pos = true /\
     (button = 4 \/ button = 5)).
Proof.
  cbv zeta. split; [apply ScrollView_content_height|].
  split; [apply ScrollView_children|].
  intros H. destruct event as [|pos button| |]; try now contradiction H.
  exists pos, button. split; [reflexivity|].
  simpl in H. destruct (pygame.collidepoint rect pos); [|now contradiction H].
  split; [reflexivity|].
  destruct (button =? 4) eqn:H4; [left; now apply Z.eqb_eq|].
  destruct (button =? 5) eqn:H5; [right; now apply Z.eqb_eq|].
  now contradiction H.
Qed.

Lemma ScrollView_only_wheel_inside_scrolls_witness :
  exists pos button,
    pygame.MOUSEBUTTONDOWN (60, 410) 5 = pygame.MOUSEBUTTONDOWN pos button /\
    pygame.collidepoint scroll_view_rect pos = true /\
    (button = 4 \/ button = 5).
Proof.
  refine (proj2 (proj2 (ScrollView_only_wheel_inside_scrolls scroll_view_rect
                          (scroll_view_attrs 0)
                          (pygame.MOUSEBUTTONDOWN (60, 410) 5))) _).
  discriminate.
Defined.

(** X8. Away from the two ends, scrolling down and then up inside the
    bounds gives back the [ScrollView] as it was: it does so whenever
    -(content_height - height) <= scroll_y - 10 and scroll_y <= 0. *)
Theorem ScrollView_down_then_up
    (rect : pygame.Rect) (self : ScrollView.attrs Widget) (pos1 pos2 : Z * Z) :
  pygame.collidepoint rect pos1 = true ->
  pygame.collidepoint rect pos2 = true ->
  - (ScrollView.content_height self - pygame.height rect)
  <= ScrollView.scroll_y self - 10 ->
  ScrollView.scroll_y self <= 0 ->
  ScrollView_after rect self
    [pygame.MOUSEBUTTONDOWN pos1 5; pygame.MOUSEBUTTONDOWN pos2 4]
  = self.
Proof.
  intros H1 H2 Hl Hu. unfold ScrollView_after. cbn [fold_left].
  unfold ScrollView.handle_event. rewrite H1.
  change (5 =? 4) with false. change (5 =? 5) with true.
  unfold ScrollView.set_scroll_y at 2.
  cbn [ScrollView.content_height ScrollView.scroll_y ScrollView.children].
  rewrite H2. change (4 =? 4) with true. change (4 =? 5) with false.
  unfold ScrollView.set_scroll_y.
  cbn [ScrollView.content_height ScrollView.scroll_y ScrollView.children].
  destruct self as [ch sy kids]. simpl in *. f_equal. lia.
Qed.

Lemma ScrollView_down_then_up_witness :
  ScrollView_after scroll_view_rect (scroll_view_attrs (-40))
    [pygame.MOUSEBUTTONDOWN (60, 410) 5; pygame.MOUSEBUTTONDOWN (700, 500) 4]
  = scroll_view_attrs (-40).
Proof.
  exact (ScrollView_down_then_up scroll_view_rect (scroll_view_attrs (-40))
           (60, 410) (700, 500) eq_refl eq_refl
           ltac:(simpl; lia) ltac:(simpl; lia)).
Defined.

(** ** The event loop *)

Lemma GameEngine_eta (self : GameEngine.t) :
  GameEngine.mk (GameEngine.running self) (GameEngine.game_objects self)
    (GameEngine.ui_elements self) (GameEngine.stdout self) = self.
Proof. now destruct self. Qed.

Lemma handle_events_cons (event : pygame.Event) (events : list pygame.Event)
    (self : GameEngine.t) :
  GameEngine.handle_events (event :: events) self
  = GameEngine.handle_events events (GameEngine.handle_one event self).
Proof. reflexivity. Qed.

Lemma handle_one_game_objects (event : pygame.Event) (self : GameEngine.t) :
  GameEngine.game_objects (GameEngine.handle_one event self)
  = GameEngine.game_objects self.
Proof.
  unfold GameEngine.handle_one.
  now destruct (GameEngine.forward event (GameEngine.ui_elements self)).
Qed.

Lemma forward_widgetwise (event : pygame.Event) (ui : list Widget) :
  fst (GameEngine.forward event ui) = map (widget_after [event]) ui.
Proof.
  induction ui as [|w rest IH]; [reflexivity|].
  rewrite forward_eq. cbn [fst]. rewrite IH. cbn [map].
  change (?a :: ?l) with ([a] ++ l) at 2. f_equal.
  destruct w as [rect color [ | | |self|self]]; try reflexivity.
  simpl. now destruct (InputBox.handle_event rect self event).
Qed.

Lemma widget_after_cons (event : pygame.Event) (events : list pygame.Event)
    (w : Widget) :
  widget_after (event :: events) w = widget_after events (widget_after [event] w).
Proof. now destruct w as [rect color [ | | |self|self]]. Qed.

Lemma widget_after_nil (w : Widget) : widget_after [] w = w.
Proof. now destruct w as [rect color [ | | |self|self]]. Qed.

Lemma handle_events_map
    (events : list pygame.Event) (self : GameEngine.t) :
  GameEngine.game_objects (GameEngine.handle_events events self)
  = GameEngine.game_objects self /\
  GameEngine.ui_elements (GameEngine.handle_events events self)
  = map (widget_after events) (GameEngine.ui_elements self).
Proof.
  revert self. induction events as [|event events IH]; intros self.
  - split; [reflexivity|]. simpl.
    induction (GameEngine.ui_elements self) as [|w l IHl]; [reflexivity|].
    simpl. now rewrite widget_after_nil, <- IHl.
  - rewrite handle_events_cons.
    destruct (IH (GameEngine.handle_one event self)) as [Hg Hu].
    rewrite Hg, Hu, handle_one_game_objects, handle_one_ui_elements,
      forward_widgetwise, map_map.
    split; [reflexivity|]. apply map_ext. intros w.
    symmetry. apply widget_after_cons.
Qed.

(** X9. Handling a queue of events leaves the game objects alone and
    changes each element of [ui_elements] on its own: an [InputBox] or a
    [ScrollView] ends as its own [handle_event] leaves it after the whole
    queue, in order, and every other element is unchanged.  No element is
    added, removed, moved or changes its [rect], [color] or class. *)
Theorem handle_events_widgetwise
    (events : list pygame.Event) (self : GameEngine.t) :
  GameEngine.game_objects (GameEngine.handle_events events self)
  = GameEngine.game_objects self /\
  GameEngine.ui_elements (GameEngine.handle_events events self)
  = map (widget_after events) (GameEngine.ui_elements self).
Proof. apply handle_events_map. Qed.

Lemma handle_events_running_eq
    (events : list pygame.Event) (self : GameEngine.t) :
  GameEngine.running (GameEngine.handle_events events self)
  = GameEngine.running self && negb (existsb is_QUIT events).
Proof.
  revert self. induction events as [|event events IH]; intros self.
  - simpl. now rewrite andb_true_r.
  - rewrite handle_events_cons, IH, handle_one_running.
    destruct event; simpl; try reflexivity. now rewrite andb_false_r.
Qed.

(** X10. The running flag after a queue of events is the flag before it,
    cleared if the queue holds a quit event: no event ever sets it. *)
Theorem handle_events_running
    (events : list pygame.Event) (self : GameEngine.t) :
  GameEngine.running (GameEngine.handle_events events self)
  = GameEngine.running self && negb (existsb is_QUIT events).
Proof. apply handle_events_running_eq. Qed.

Lemma forward_OTHER (type : Z) (ui : list Widget) :
  GameEngine.forward (pygame.OTHER type) ui = (ui, []).
Proof.
  induction ui as [|w rest IH]; [reflexivity|].
  rewrite forward_eq, IH. simpl.
  now destruct w as [rect color [ | | |self|self]].
Qed.

(** X11. Events of a type the engine does not test are ignored: a queue
    of such events leaves the engine exactly as it was, and prints
    nothing. *)
Theorem handle_events_ignores_other_events
    (events : list pygame.Event) (self : GameEngine.t) :
  Forall (fun event => is_OTHER event = true) events ->
  GameEngine.handle_events events self = self.
Proof.
  intros H. revert self.
  induction H as [|event events He _ IH]; intros self; [reflexivity|].
  rewrite handle_events_cons.
  destruct event as [| | |type]; try discriminate He.
  replace (GameEngine.handle_one (pygame.OTHER type) self) with self;
    [apply IH|].
  unfold GameEngine.handle_one. rewrite forward_OTHER. simpl.
  now rewrite app_nil_r, GameEngine_eta.
Qed.

Lemma handle_events_ignores_other_events_witness :
  GameEngine.handle_events [pygame.OTHER 1024; pygame.OTHER 769]
    (engine [start_button; input_box "ab" true; scroll_view (-20)])
  = engine [start_button; input_box "ab" true; scroll_view (-20)].
Proof.
  apply handle_events_ignores_other_events. repeat constructor.
Defined.

Lemma forward_KEYDOWN_unfocused (key : Z) (unicode : string)
    (ui : list Widget) :
  Forall (fun w => focused w = false) ui ->
  GameEngine.forward (pygame.KEYDOWN key unicode) ui = (ui, []).
Proof.
  induction 1 as [|w rest Hw _ IH]; [reflexivity|].
  rewrite forward_eq, IH.
  destruct w as [rect color [ | | |self|self]]; try reflexivity.
  simpl in Hw. cbn [GameEngine.forward].
  now rewrite (InputBox_key_unfocused rect self key unicode Hw).
Qed.

(** X12. When no [InputBox] of [ui_elements] is focused, key-down events
    do nothing at all: the engine is as it was after any queue of them. *)
Theorem handle_events_keys_without_focus
    (events : list pygame.Event) (self : GameEngine.t) :
  Forall (fun w => focused w = false) (GameEngine.ui_elements self) ->
  Forall (fun event => is_KEYDOWN event = true) events ->
  GameEngine.handle_events events self = self.
Proof.
  intros Hf H. induction H as [|event events He _ IH]; [reflexivity|].
  rewrite handle_events_cons.
  destruct event as [| |key unicode|]; try discriminate He.
  replace (GameEngine.handle_one (pygame.KEYDOWN key unicode) self) with self;
    [exact IH|].
  unfold GameEngine.handle_one.
  rewrite (forward_KEYDOWN_unfocused key unicode _ Hf). simpl.
  now rewrite app_nil_r, GameEngine_eta.
Qed.

Lemma handle_events_keys_without_focus_witness :
  GameEngine.handle_events [pygame.KEYDOWN 97 "a"; pygame.KEYDOWN 13 EmptyString]
    (engine [start_button; input_box "" false; scroll_view 0])
  = engine [start_button; input_box "" false; scroll_view 0].
Proof.
  apply handle_events_keys_without_focus; repeat constructor.
Defined.

Lemma forward_KEYDOWN_lines (key : Z) (unicode : string) (ui : list Widget) :
  snd (GameEngine.forward (pygame.KEYDOWN key unicode) ui)
  = if key =? pygame.K_RETURN
    then map input_line (filter focused ui) else [].
Proof.
  induction ui as [|w rest IH].
  - now destruct (key =? pygame.K_RETURN).
  - rewrite forward_eq. cbn [snd]. rewrite IH.
    destruct w as [rect color [ | | |self|self]];
      try (simpl; now destruct (key =? pygame.K_RETURN)).
    cbn [filter focused]. unfold GameEngine.forward at 1.
    unfold InputBox.handle_event.
    destruct (InputBox.active self); simpl;
      destruct (key =? pygame.K_RETURN); try reflexivity.
    now destruct (key =? pygame.K_BACKSPACE).
Qed.

(** X13. For a Return key, the event loop prints the line
    "Input: <buffer>" of every focused [InputBox] of [ui_elements], in
    list order (there may be several), and nothing else. *)
Theorem return_key_prints_every_focused_buffer
    (unicode : string) (self : GameEngine.t) :
  GameEngine.stdout
    (GameEngine.handle_events [pygame.KEYDOWN pygame.K_RETURN unicode] self)
  = GameEngine.stdout self
    ++ map input_line (filter focused (GameEngine.ui_elements self)).
Proof.
  unfold GameEngine.handle_events, GameEngine.handle_one. cbn [fold_left].
  pose proof (forward_KEYDOWN_lines pygame.K_RETURN unicode
                (GameEngine.ui_elements self)) as H.
  destruct (GameEngine.forward _ _) as [ui out]. simpl in H. now subst out.
Qed.

(** X14. Nothing is printed for an event that is neither a press of the
    left button nor a Return key. *)
Theorem only_left_press_and_return_print
    (event : pygame.Event) (self : GameEngine.t) :
  may_print event = false ->
  GameEngine.stdout (GameEngine.handle_events [event] self)
  = GameEngine.stdout self.
Proof.
  intros H. unfold GameEngine.handle_events, GameEngine.handle_one.
  cbn [fold_left].
  destruct event as [|pos button|key unicode|type].
  - rewrite forward_QUIT. simpl. now rewrite app_nil_r.
  - pose proof (forward_mouse_silent pos button (GameEngine.ui_elements self))
      as Hs.
    destruct (GameEngine.forward _ _) as [ui out]. simpl in Hs, H. subst out.
    simpl. rewrite H. now rewrite app_nil_r.
  - pose proof (forward_KEYDOWN_lines key unicode (GameEngine.ui_elements self))
      as Hs.
    destruct (GameEngine.forward _ _) as [ui out]. simpl in Hs, H.
    rewrite H in Hs. subst out. simpl. now rewrite app_nil_r.
  - rewrite forward_OTHER. simpl. now rewrite app_nil_r.
Qed.

Lemma only_left_press_and_return_print_witness :
  GameEngine.stdout
    (GameEngine.handle_events [pygame.MOUSEBUTTONDOWN (350, 260) 3]
       (engine [start_button; input_box "ab" true]))
  = [].
Proof.
  exact (only_left_press_and_return_print (pygame.MOUSEBUTTONDOWN (350, 260) 3)
           (engine [start_button; input_box "ab" true]) eq_refl).
Defined.


(** ** Drawing *)

(** X16. A [ScrollView] as its constructor leaves it cannot be drawn:
    [__init__] does not assign [children], so [draw] always raises.  When
    the screen accepts the scroll view's own rectangle, what is raised is
    AttributeError, after the clip rectangle of the screen has been set
    for the scroll view's [rect] and the rectangle filled; the clip
    rectangle is not set back. *)
Theorem new_ScrollView_draw_raises
    (x y width height : Z) (color : pygame.Color) (content_height : Z)
    (screen : pygame.Surface) :
  pygame.is_c_int x = true -> pygame.is_c_int y = true ->
  pygame.is_c_int width = true -> pygame.is_c_int height = true ->
  let rect := pygame.mkRect x y width height in
  exists kind,
    ScrollView__init__ x y width height color content_height
    = Ok (Obj rect color kind) /\
    snd (draw rect color kind screen) <> None /\
    (pygame.refuses screen (pygame.DrawRect color rect) = None ->
     draw rect color kind screen
     = (kind,
        pygame.mkSurface (pygame.clipped screen) (pygame.refuses screen)
          (pygame.clipped screen (pygame.clip screen) rect)
          (pygame.ops screen
           ++ [pygame.SetClip rect; pygame.DrawRect color rect]),
        Some (AttributeError "children"))).
Proof.
  intros Hx Hy Hw Hh. cbv zeta. eexists. split; [|split].
  - unfold ScrollView__init__, GameObject__init__.
    now rewrite (Rect_new_c_ints x y width height Hx Hy Hw Hh).
  - rewrite draw_ScrollView_eq. cbv zeta.
    destruct (GameObject.draw _ _ _) as [s1 [e1|]]; simpl; discriminate.
  - intros Hr. rewrite draw_ScrollView_eq. cbv zeta.
    unfold GameObject.draw, pygame.draw_rect, pygame.request, pygame.set_clip.
    simpl. rewrite Hr. simpl. now rewrite <- app_assoc.
Qed.

Lemma new_ScrollView_draw_raises_witness :
  snd (draw scroll_view_rect (100, 100, 100)
         (IsScrollView (ScrollView.mk 300 0 None)) (display 800 600))
  = Some (AttributeError "children").
Proof.
  destruct (new_ScrollView_draw_raises 50 400 700 150 (100, 100, 100) 300
              (display 800 600) eq_refl eq_refl eq_refl eq_refl)
    as [kind [Hk [_ Hd]]].
  injection Hk as <-. exact (f_equal snd (Hd eq_refl)).
Defined.

(** ** The frame loop *)

Lemma update_eq (self : GameLoop.t) : GameLoop.update self = self.
Proof.
  unfold GameLoop.update. destruct self as [e screen ticks]. simpl.
  f_equal. unfold GameObject_update. rewrite map_id. apply GameEngine_eta.
Qed.

Lemma draw_all_cons (rect : pygame.Rect) (color : pygame.Color) (kind : Kind)
    (rest : list Widget) (screen : pygame.Surface) :
  GameLoop.draw_all (Obj rect color kind :: rest) screen
  = match draw rect color kind screen with
    | (kind, screen, Some e) => (Obj rect color kind :: rest, screen, Some e)
    | (kind, screen, None) =>
        let '(rest, screen, e) := GameLoop.draw_all rest screen in
        (Obj rect color kind :: rest, screen, e)
    end.
Proof. reflexivity. Qed.





Lemma render_keeps (self : GameLoop.t) :
  GameEngine.running (GameLoop.engine (fst (GameLoop.render self)))
  = GameEngine.running (GameLoop.engine self) /\
  GameLoop.ticks (fst (GameLoop.render self)) = GameLoop.ticks self.
Proof.
  unfold GameLoop.render.
  destruct (GameLoop.draw_all (GameEngine.game_objects _) _)
    as [[g s1] [e1|]]; [split; reflexivity|].
  destruct (GameLoop.draw_all (GameEngine.ui_elements _) _)
    as [[u s2] [e2|]]; split; reflexivity.
Qed.


Lemma run_cons (events : list pygame.Event) (polls : list (list pygame.Event))
    (self : GameLoop.t) :
  GameEngine.running (GameLoop.engine self) = true ->
  GameLoop.run (events :: polls) self
  = match GameLoop.render (GameLoop.handle_events events self) with
    | (self, Some e) => (self, GameLoop.Uncaught e)
    | (self, None) => GameLoop.run polls (GameLoop.tick self)
    end.
Proof. intros H. cbn [GameLoop.run]. now rewrite H, update_eq. Qed.








Lemma ScrollView_after_children {W} (rect : pygame.Rect)
    (self : ScrollView.attrs W) (events : list pygame.Event) :
  ScrollView.children (ScrollView_after rect self events)
  = ScrollView.children self.
Proof.
  unfold ScrollView_after. revert self.
  induction events as [|event events IH]; intros self; simpl; [reflexivity|].
  now rewrite IH, ScrollView_children.
Qed.

Lemma widget_after_assigned (events : list pygame.Event) (w : Widget) :
  widget_assigned (widget_after events w) = widget_assigned w.
Proof.
  destruct w as [rect color [ | | |self|self]]; try reflexivity.
  simpl. now rewrite ScrollView_after_children.
Qed.

Lemma widgets_after_assigned (events : list pygame.Event) (l : list Widget) :
  forallb widget_assigned (map (widget_after events) l)
  = forallb widget_assigned l.
Proof.
  induction l as [|w l IH]; [reflexivity|].
  cbn [map forallb]. now rewrite widget_after_assigned, IH.
Qed.

Lemma handle_events_drawable (events : list pygame.Event)
    (self : GameEngine.t) :
  drawable (GameEngine.handle_events events self) = drawable self.
Proof.
  unfold drawable. destruct (handle_events_map events self) as [Hg Hu].
  now rewrite Hg, Hu, widgets_after_assigned.
Qed.

Lemma draw_unassigned (kind : Kind) :
  children_assigned kind = false ->
  forall (rect : pygame.Rect) (color : pygame.Color) (screen : pygame.Surface),
    snd (draw rect color kind screen) <> None.
Proof.
  induction kind as [ |self|self|self|content_height scroll_y
                     |content_height scroll_y children IH]
    using Kind_nested_ind; intros Hc rect color screen; try discriminate Hc.
  - rewrite draw_ScrollView_eq. cbv zeta.
    destruct (GameObject.draw _ _ _) as [s1 [e1|]]; simpl; discriminate.
  - simpl in Hc.
    assert (Hkids : forall s,
               snd (draw_children scroll_y children s) <> None).
    { induction IH as [|[r c k] rest Hk _ IHrest]; [discriminate Hc|].
      intros s. rewrite draw_children_cons. cbn [forallb] in Hc.
      destruct (pygame.iadd_y r scroll_y) as [r1|e0]; [|simpl; discriminate].
      destruct (draw r1 c k s) as [[k1 s1] e1] eqn:E.
      destruct e1 as [e1|]; [simpl; discriminate|].
      destruct (pygame.isub_y r1 scroll_y) as [r2|e2]; [|simpl; discriminate].
      destruct (children_assigned k) eqn:Ek.
      - specialize (IHrest Hc s1).
        destruct (draw_children scroll_y rest s1) as [[rest' s2] e3].
        exact IHrest.
      - exfalso. apply (Hk eq_refl r1 c s). now rewrite E. }
    rewrite draw_ScrollView_eq. cbv zeta.
    destruct (GameObject.draw _ _ _) as [s1 [e1|]]; [simpl; discriminate|].
    cbn [ScrollView.children ScrollView.scroll_y].
    specialize (Hkids s1).
    destruct (draw_children scroll_y children s1) as [[kids' s'] [e'|]];
      [simpl; discriminate | now contradiction Hkids].
Qed.

Lemma draw_all_unassigned (objects : list Widget) (screen : pygame.Surface) :
  forallb widget_assigned objects = false ->
  snd (GameLoop.draw_all objects screen) <> None.
Proof.
  revert screen. induction objects as [|[r c k] rest IH]; intros screen Hc;
    [discriminate Hc|].
  rewrite draw_all_cons. cbn [forallb widget_assigned] in Hc.
  destruct (draw r c k screen) as [[k1 s1] e1] eqn:E.
  destruct e1 as [e1|]; [simpl; discriminate|].
  destruct (children_assigned k) eqn:Ek.
  - specialize (IH s1 Hc).
    destruct (GameLoop.draw_all rest s1) as [[rest' s2] e2]. exact IH.
  - exfalso. apply (draw_unassigned k Ek r c screen). now rewrite E.
Qed.

Lemma render_undrawable (self : GameLoop.t) :
  drawable (GameLoop.engine self) = false ->
  snd (GameLoop.render self) <> None.
Proof.
  unfold drawable, GameLoop.render. intros H.
  destruct (forallb widget_assigned
              (GameEngine.game_objects (GameLoop.engine self))) eqn:Eg.
  - simpl in H.
    destruct (GameLoop.draw_all (GameEngine.game_objects _) _)
      as [[g s1] [e1|]]; [simpl; discriminate|].
    pose proof (draw_all_unassigned _ s1 H) as Hu.
    destruct (GameLoop.draw_all (GameEngine.ui_elements _) s1)
      as [[u s2] [e2|]]; [simpl; discriminate | now contradiction Hu].
  - pose proof (draw_all_unassigned _
                  (pygame.fill (0, 0, 0) (GameLoop.screen self)) Eg) as Hg.
    destruct (GameLoop.draw_all (GameEngine.game_objects _) _)
      as [[g s1] [e1|]]; [simpl; discriminate | now contradiction Hg].
Qed.

(** X21. An engine that holds, among its game objects or elements, a
    scroll view whose [children] were never assigned (at any depth) does
    not survive its first frame: whatever the events of the first poll,
    [render] raises an exception, which nothing catches; [run] ends
    there, before the clock ticks and without reading another poll. *)
Theorem run_raises_on_unassigned_children
    (events : list pygame.Event) (polls : list (list pygame.Event))
    (self : GameLoop.t) :
  GameEngine.running (GameLoop.engine self) = true ->
  drawable (GameLoop.engine self) = false ->
  (exists e,
     snd (GameLoop.run (events :: polls) self) = GameLoop.Uncaught e) /\
  GameLoop.ticks (fst (GameLoop.run (events :: polls) self))
  = GameLoop.ticks self.
Proof.
  intros Hr Hd. rewrite (run_cons _ _ _ Hr).
  assert (H : drawable (GameLoop.engine (GameLoop.handle_events events self))
              = false).
  { simpl. now rewrite handle_events_drawable. }
  pose proof (render_undrawable _ H) as He.
  destruct (render_keeps (GameLoop.handle_events events self)) as [_ Ht].
  destruct (GameLoop.render (GameLoop.handle_events events self))
    as [s [e|]]; [|now contradiction He].
  split; [now exists e | exact Ht].
Qed.

Lemma run_raises_on_unassigned_children_witness :
  exists e,
    snd (GameLoop.run [[pygame.QUIT]; []]
           (GameLoop.mk
              (GameEngine.mk true [player]
                 [start_button;
                  Obj scroll_view_rect (100, 100, 100)
                      (IsScrollView (ScrollView.mk 300 0 None))] [])
              (display 800 600) 0))
    = GameLoop.Uncaught e.
Proof.
  exact (proj1 (run_raises_on_unassigned_children [pygame.QUIT] [[]]
                  (GameLoop.mk
                     (GameEngine.mk true [player]
                        [start_button;
                         Obj scroll_view_rect (100, 100, 100)
                             (IsScrollView (ScrollView.mk 300 0 None))] [])
                     (display 800 600) 0)
                  eq_refl eq_refl)).
Defined.
(** X22. After a mouse press is handled, whatever its button, an
    [InputBox] of the engine can be focused only if the press was inside
    its bounds: every box away from the pointer is blurred. *)
Theorem press_leaves_focus_under_the_pointer
    (pos : Z * Z) (button : Z) (self : GameEngine.t) (w : Widget) :
  In w (GameEngine.ui_elements
          (GameEngine.handle_events [pygame.MOUSEBUTTONDOWN pos button] self)) ->
  focused w = true ->
  pygame.collidepoint (widget_rect w) pos = true.
Proof.
  destruct (handle_events_map [pygame.MOUSEBUTTONDOWN pos button] self)
    as [_ Hu].
  rewrite Hu. intros Hin Hf. apply in_map_iff in Hin as [w0 [Hw _]].
  subst w. destruct w0 as [rect color [ | | |box|sv]]; try discriminate Hf.
  cbn [widget_after widget_rect focused] in Hf |- *.
  unfold InputBox_after in Hf. cbn [fold_left] in Hf.
  rewrite InputBox_mouse in Hf. simpl in Hf.
  now destruct (pygame.collidepoint rect pos).
Qed.

Lemma press_leaves_focus_under_the_pointer_witness :
  pygame.collidepoint input_box_rect (310, 360) = true.
Proof.
  refine (press_leaves_focus_under_the_pointer (310, 360) 1
            (engine [start_button; input_box "" false])
            (input_box "" true) _ eq_refl).
  right. left. reflexivity.
Defined.
